(** * unicornherder: the Herder supervisor of [herder.py]

    A shallow embedding of [unicornherder/herder.py].  The supervisor is
    effectful Python: it reads a pidfile, inspects and signals processes,
    sleeps, and keeps a process-wide set [MANAGED_PIDS].  The embedding
    threads an explicit [State] through a small state-and-exception monad;
    whatever the operating system decides (pidfile contents, liveness of a
    pid, the children of a process, when the spawned process exits) is read
    from an [Env] record of oracles indexed by the clock.

    Time is a logical clock counted in seconds: only blocking calls
    ([time.sleep], [Popen.wait]) advance it; where the code compares a
    measured elapsed time with a limit, the comparison accounts for the
    fraction of a second its own statements take.  Signal handlers are
    atomic state transformers; they are not interleaved with the monitor
    loop. *)

From stdpp Require Import gmap strings.
From Stdlib Require Import ZArith Lia.

Local Open Scope Z_scope.
Local Open Scope string_scope.

(** ** Signals, exceptions, log records *)

Module signal.
Inductive Signals :=
| SIGHUP | SIGINT | SIGQUIT | SIGTERM | SIGTTIN | SIGTTOU
| SIGUSR1 | SIGUSR2 | SIGWINCH | SIGKILL.

#[global] Instance Signals_eq_dec : EqDecision Signals.
Proof. solve_decision. Defined.

(** [getattr(signal, 'SIG%s' % sig)] *)
Definition getattr (name : string) : option Signals :=
  if decide (name = "HUP") then Some SIGHUP
  else if decide (name = "INT") then Some SIGINT
  else if decide (name = "QUIT") then Some SIGQUIT
  else if decide (name = "TERM") then Some SIGTERM
  else if decide (name = "TTIN") then Some SIGTTIN
  else if decide (name = "TTOU") then Some SIGTTOU
  else if decide (name = "USR1") then Some SIGUSR1
  else if decide (name = "USR2") then Some SIGUSR2
  else if decide (name = "WINCH") then Some SIGWINCH
  else if decide (name = "KILL") then Some SIGKILL
  else None.
End signal.
Export signal.

Inductive herder_msg :=
| UnknownUnicornType (flavor : string)
| FailedToReadPidfile (path : string) (secs : Z).

Inductive exn :=
| HerderError (msg : herder_msg)
| PidfileError
| TimeoutError
| NoSuchProcess (p : Z)
| KeyError (key : string)
| ValueError
| IndexError
| AttributeError (name : string)
| OSError (errno : Z).

(** What a call does: return a value or raise. *)
Inductive outcome (A : Type) :=
| Ret (a : A)
| Raise (e : exn).
Arguments Ret {A} a.
Arguments Raise {A} e.

Inductive level := DEBUG | INFO | WARN | ERROR.

(** One constructor per logging statement of the module. *)
Inductive logmsg :=
| LCalling (flavor cmd : string)
| LNotFound (prog : string)
| LFailedToDaemonize (flavor : string) (secs : Z)
| LDied (flavor : string)
| LBooted (flavor : string) (p : Z)
| LChangedPid (flavor : string) (was now_ : Z)
| LPidfileReadError
| LRetrying
| LNoTracked (name : string)
| LExpectingTermination (name : string)
| LForwarding (name : string) (p : Z)
| LCaughtHUP (p : Z)
| LFoundChildren (expected p overlap_ : Z)
| LNotReached (expected secs p : Z)
| LSendingWINCH (p : Z)
| LSendingQUIT (p : Z).

(** What the supervisor does to the outside world. *)
Inductive event :=
| Log (lv : level) (m : logmsg)
| Sent (at_ : Z) (p : Z) (sig : Signals).

(** ** Process handles *)

Module psutil.
Record Process := { pid : Z }.
End psutil.

Module subprocess.
Record Popen := { pid : Z }.
End subprocess.

(** ** The environment

    Collaborators outside [herder.py]: the pidfile reader, the process
    table seen through psutil, and process launch. *)
Record Env := {
  (** [Pidfile(path).pid] at a given time; [None] is [PidfileError] *)
  pidfile_pid : string -> Z -> option Z;
  (** the process table: whether a process with that number runs at a
      given time *)
  running : Z -> Z -> bool;
  (** the child pids of a running process at a given time *)
  child_pids : Z -> Z -> list Z;
  (** [shlex.split] *)
  shlex_split : string -> list string;
  (** [subprocess.Popen(cmd)] at a given time: the new pid, or a raise *)
  popen : list string -> Z -> outcome Z;
  (** the time at which a launched foreground process exits, if ever *)
  exits_at : Z -> option Z
}.

(** Whether a pid names a running process at a given time, as psutil sees
    it: a negative number is no pid and names no process. *)
Definition alive (env : Env) (t p : Z) : bool :=
  bool_decide (0 <= p) && running env t p.
Arguments alive : simpl never.

(** ** COMMANDS *)

(** The double-quote character of the command templates. *)
Definition dq : string := String (Ascii.ascii_of_nat 34) EmptyString.

Definition COMMANDS : gmap string string :=
  list_to_map
    [ ("unicorn", "unicorn -D -P " ++ dq ++ "{pidfile}" ++ dq ++ " {args}");
      ("unicorn_rails", "unicorn_rails -D {args}");
      ("unicorn_bin", "{unicorn_bin} -D -P " ++ dq ++ "{pidfile}" ++ dq ++ " {args}");
      ("gunicorn", "gunicorn -D -p " ++ dq ++ "{pidfile}" ++ dq ++ " {args}");
      ("gunicorn_django", "gunicorn_django -D -p " ++ dq ++ "{pidfile}" ++ dq ++ " {args}");
      ("gunicorn_bin", "{gunicorn_bin} -D -p " ++ dq ++ "{pidfile}" ++ dq ++ " {args}") ].

(** [str.format] with keyword arguments, for templates whose replacement
    fields are plain names (no escapes, no format specs, as in [COMMANDS]):
    a field that is not among the keywords raises [KeyError]. *)
Fixpoint format_go (tpl : string) (field : option string)
    (kw : list (string * string)) : outcome string :=
  match tpl with
  | EmptyString =>
      match field with
      | None => Ret EmptyString
      | Some _ => Raise ValueError
      end
  | String c rest =>
      match field with
      | None =>
          if decide (c = Ascii.ascii_of_nat 123) then format_go rest (Some EmptyString) kw
          else
            match format_go rest None kw with
            | Ret s => Ret (String c s)
            | Raise e => Raise e
            end
      | Some f =>
          if decide (c = Ascii.ascii_of_nat 125) then
            match list_to_map (M := gmap string string) kw !! f with
            | Some v =>
                match format_go rest None kw with
                | Ret s => Ret (v ++ s)
                | Raise e => Raise e
                end
            | None => Raise (KeyError f)
            end
          else format_go rest (Some (f ++ String c EmptyString)) kw
      end
  end.

Definition format (tpl : string) (kw : list (string * string)) : outcome string :=
  format_go tpl None kw.

(** ** The Herder object *)

Record Herder := {
  unicorn : string;
  unicorn_bin : option string;
  gunicorn_bin : option string;
  pidfile : string;
  args : string;
  boot_timeout : Z;
  pidfile_timeout : Z;
  overlap : Z;
  max_worker_wait_time : Z;
  master : option psutil.Process;
  reloading : bool;
  terminating : bool
}.

(** Python truth value of an optional string: [None] and [''] are false. *)
Definition truthy (s : option string) : bool :=
  match s with
  | None => false
  | Some s => negb (bool_decide (s = EmptyString))
  end.

Definition from_option_str (s : option string) : string := default EmptyString s.

(** [Herder.__init__].  The lookup [COMMANDS[self.unicorn]] is made only
    when neither binary is given; its [KeyError] becomes [HerderError]. *)
Definition __init__ (unicorn_ : string) (unicorn_bin_ gunicorn_bin_ : option string)
    (pidfile_ : option string)
    (boot_timeout_ pidfile_timeout_ overlap_ max_worker_wait_time_ : Z)
    (args_ : string) : outcome Herder :=
  let self_unicorn :=
    if truthy unicorn_bin_ then from_option_str unicorn_bin_
    else if truthy gunicorn_bin_ then from_option_str gunicorn_bin_
    else unicorn_ in
  let self_pidfile :=
    match pidfile_ with
    | None => self_unicorn ++ ".pid"
    | Some p => p
    end in
  let lookup_ : outcome unit :=
    if negb (truthy unicorn_bin_) && negb (truthy gunicorn_bin_) then
      match COMMANDS !! self_unicorn with
      | Some _ => Ret tt
      | None => Raise (KeyError self_unicorn)
      end
    else Ret tt in
  match lookup_ with
  | Raise (KeyError _) => Raise (HerderError (UnknownUnicornType self_unicorn))
  | Raise e => Raise e
  | Ret _ =>
      Ret {| unicorn := self_unicorn;
             unicorn_bin := unicorn_bin_;
             gunicorn_bin := gunicorn_bin_;
             pidfile := self_pidfile;
             args := args_;
             boot_timeout := boot_timeout_;
             pidfile_timeout := pidfile_timeout_;
             overlap := overlap_;
             max_worker_wait_time := max_worker_wait_time_;
             master := None;
             reloading := false;
             terminating := false |}
  end.

(** The defaults of the constructor's signature. *)
Definition Herder_default : outcome Herder :=
  __init__ "gunicorn" None None None 180 180 180 180 EmptyString.

(** ** Supervisor state and the monad *)

Inductive handler :=
| Handle_HUP
| Handle_signal (name : string).

Record State := {
  (** [time.time()] *)
  now : Z;
  (** the pending deadline of [timeout], as an absolute time *)
  alarm : option Z;
  (** the module-level set *)
  MANAGED_PIDS : gset Z;
  (** the Herder instance *)
  self : Herder;
  (** installed signal handlers, latest first *)
  handlers : list (Signals * handler);
  (** events so far, oldest first *)
  trace : list event
}.

Definition set_now (t : Z) (st : State) : State :=
  {| now := t; alarm := alarm st; MANAGED_PIDS := MANAGED_PIDS st;
     self := self st; handlers := handlers st; trace := trace st |}.
Definition set_alarm (a : option Z) (st : State) : State :=
  {| now := now st; alarm := a; MANAGED_PIDS := MANAGED_PIDS st;
     self := self st; handlers := handlers st; trace := trace st |}.
Definition set_MANAGED_PIDS (s : gset Z) (st : State) : State :=
  {| now := now st; alarm := alarm st; MANAGED_PIDS := s;
     self := self st; handlers := handlers st; trace := trace st |}.
Definition set_self (h : Herder) (st : State) : State :=
  {| now := now st; alarm := alarm st; MANAGED_PIDS := MANAGED_PIDS st;
     self := h; handlers := handlers st; trace := trace st |}.
Definition set_handlers (l : list (Signals * handler)) (st : State) : State :=
  {| now := now st; alarm := alarm st; MANAGED_PIDS := MANAGED_PIDS st;
     self := self st; handlers := l; trace := trace st |}.
Definition emit (e : event) (st : State) : State :=
  {| now := now st; alarm := alarm st; MANAGED_PIDS := MANAGED_PIDS st;
     self := self st; handlers := handlers st; trace := trace st ++ [e] |}.

Definition set_master (m : option psutil.Process) (h : Herder) : Herder :=
  {| unicorn := unicorn h; unicorn_bin := unicorn_bin h;
     gunicorn_bin := gunicorn_bin h; pidfile := pidfile h; args := args h;
     boot_timeout := boot_timeout h; pidfile_timeout := pidfile_timeout h;
     overlap := overlap h; max_worker_wait_time := max_worker_wait_time h;
     master := m; reloading := reloading h; terminating := terminating h |}.
Definition set_reloading (b : bool) (h : Herder) : Herder :=
  {| unicorn := unicorn h; unicorn_bin := unicorn_bin h;
     gunicorn_bin := gunicorn_bin h; pidfile := pidfile h; args := args h;
     boot_timeout := boot_timeout h; pidfile_timeout := pidfile_timeout h;
     overlap := overlap h; max_worker_wait_time := max_worker_wait_time h;
     master := master h; reloading := b; terminating := terminating h |}.
Definition set_terminating (b : bool) (h : Herder) : Herder :=
  {| unicorn := unicorn h; unicorn_bin := unicorn_bin h;
     gunicorn_bin := gunicorn_bin h; pidfile := pidfile h; args := args h;
     boot_timeout := boot_timeout h; pidfile_timeout := pidfile_timeout h;
     overlap := overlap h; max_worker_wait_time := max_worker_wait_time h;
     master := master h; reloading := reloading h; terminating := b |}.

(** A computation either runs out of loop fuel or blocks for ever ([None]),
    or ends in a return or a raise together with the state it leaves. *)
Definition M (A : Type) : Type := State -> option (outcome A * State).

Definition ret {A} (a : A) : M A := fun st => Some (Ret a, st).
Definition raise {A} (e : exn) : M A := fun st => Some (Raise e, st).
Definition bind {A B} (m : M A) (k : A -> M B) : M B := fun st =>
  match m st with
  | None => None
  | Some (Ret a, st') => k a st'
  | Some (Raise e, st') => Some (Raise e, st')
  end.
Definition lift {A} (o : outcome A) : M A := fun st => Some (o, st).

Notation "'let*' x ':=' m 'in' k" := (bind m (fun x => k))
  (at level 10, x pattern, m at level 100, k at level 200).
Notation "m ';;' k" := (bind m (fun _ => k))
  (at level 100, k at level 200, right associativity).

(** [try: m except e: h e]: the handler says which exceptions it takes. *)
Definition try_except {A} (m : M A) (h : exn -> option (M A)) : M A := fun st =>
  match m st with
  | Some (Raise e, st') =>
      match h e with
      | Some k => k st'
      | None => Some (Raise e, st')
      end
  | r => r
  end.

Definition get {A} (f : State -> A) : M A := fun st => Some (Ret (f st), st).
Definition modify (f : State -> State) : M unit := fun st => Some (Ret tt, f st).
Definition getself {A} (f : Herder -> A) : M A := get (fun st => f (self st)).
Definition setself (f : Herder -> Herder) : M unit :=
  modify (fun st => set_self (f (self st)) st).

Definition log (lv : level) (m : logmsg) : M unit := modify (emit (Log lv m)).

(** ** Blocking, the clock and the deadline *)

(** A blocking call that needs [d] more seconds ([None]: for ever).  With a
    deadline pending, the call completes only if it ends strictly before
    the deadline; otherwise the clock stops at the deadline, the deadline is
    spent and [TimeoutError] is raised in the blocked call. *)
Definition block (d : option Z) : M unit := fun st =>
  match alarm st with
  | None =>
      match d with
      | Some d => Some (Ret tt, set_now (now st + d) st)
      | None => None
      end
  | Some dl =>
      match d with
      | Some d =>
          if decide (now st + d < dl) then Some (Ret tt, set_now (now st + d) st)
          else Some (Raise TimeoutError, set_alarm None (set_now (Z.max (now st) dl) st))
      | None => Some (Raise TimeoutError, set_alarm None (set_now (Z.max (now st) dl) st))
      end
  end.

Module time.
Definition time : M Z := get now.
(** [(time.time() - start) > limit], as the code measures it.  The clock
    of the model counts the whole seconds slept; the float the code reads
    is later than that by the time its own statements took, a positive
    fraction of a second.  After [k] sleeps of one second the measured
    time lies strictly between [k] and [k + 1], so it exceeds a
    whole-number [limit] exactly when [limit <= k]. *)
Definition elapsed_exceeds (t start limit : Z) : Prop := limit <= t - start.
#[global] Instance elapsed_exceeds_dec t start limit :
  Decision (elapsed_exceeds t start limit).
Proof. unfold elapsed_exceeds. apply _. Defined.

(** [time.sleep(secs)]; a negative length raises [ValueError]. *)
Definition sleep (secs : Z) : M unit :=
  if decide (secs < 0) then raise ValueError else block (Some secs).
End time.

(** Modelled from the spec: the context manager [timeout] of module
    [unicornherder.timeout], the "Deadline" component, a single-shot
    wait-with-timeout primitive bounding a blocking operation.  Entering
    arms the deadline [secs] seconds ahead; leaving the block normally
    cancels it; when the deadline is reached inside the block the blocked
    call raises [TimeoutError] (see [block]). *)
Definition timeout {A} (secs : Z) (body : M A) : M A :=
  let* t := time.time in
  modify (set_alarm (Some (t + secs)));;
  let* r := body in
  modify (set_alarm None);;
  ret r.

Section Program.
Context (env : Env).

(** ** psutil and subprocess, through the environment *)

(** [psutil.Process(pid)]: [ValueError] for a negative pid,
    [NoSuchProcess] for a pid that names no running process. *)
Definition psutil_Process (p : Z) : M psutil.Process :=
  if decide (p < 0) then raise ValueError
  else
    let* t := time.time in
    if alive env t p then ret {| psutil.pid := p |} else raise (NoSuchProcess p).

(** [process.children()] *)
Definition children (proc : psutil.Process) : M (list psutil.Process) :=
  let* t := time.time in
  if alive env t (psutil.pid proc)
  then ret (psutil.Build_Process <$> child_pids env t (psutil.pid proc))
  else raise (NoSuchProcess (psutil.pid proc)).

(** [process.send_signal(sig)]: psutil raises [NoSuchProcess] when the
    process is gone; a delivered signal is recorded with its time. *)
Definition send_signal (proc : psutil.Process) (sig : Signals) : M unit :=
  let* t := time.time in
  if alive env t (psutil.pid proc)
  then modify (emit (Sent t (psutil.pid proc) sig))
  else raise (NoSuchProcess (psutil.pid proc)).

(** [subprocess.Popen(cmd)] *)
Definition Popen (cmd : list string) : M subprocess.Popen :=
  let* t := time.time in
  let* p := lift (popen env cmd t) in
  ret {| subprocess.pid := p |}.

(** [process.poll()]: [None] while the process runs. *)
Definition poll (proc : subprocess.Popen) : M (option Z) :=
  let* t := time.time in
  match exits_at env (subprocess.pid proc) with
  | Some te => if decide (te <= t) then ret (Some 0) else ret None
  | None => ret None
  end.

(** [process.wait()]: blocks until the process has exited. *)
Definition wait (proc : subprocess.Popen) : M unit :=
  let* t := time.time in
  match exits_at env (subprocess.pid proc) with
  | Some te => block (Some (Z.max 0 (te - t)))
  | None => block None
  end.

(** [process.terminate()]: SIGTERM to the child. *)
Definition terminate (proc : subprocess.Popen) : M unit :=
  let* t := time.time in
  modify (emit (Sent t (subprocess.pid proc) SIGTERM)).

(** ** Module-level functions *)

Definition MANAGED_PIDS_add (p : Z) : M unit :=
  modify (fun st => set_MANAGED_PIDS ({[ p ]} ∪ MANAGED_PIDS st) st).

(** [set.remove] raises [KeyError] on a missing element. *)
Definition MANAGED_PIDS_remove (p : Z) : M unit :=
  let* s := get MANAGED_PIDS in
  if decide (p ∈ s)
  then modify (fun st => set_MANAGED_PIDS (MANAGED_PIDS st ∖ {[ p ]}) st)
  else raise (KeyError "MANAGED_PIDS.remove").

(** [len(process.children())] *)
Definition len {A} (l : list A) : Z := Z.of_nat (length l).

(** The [while len(new_process.children()) < expected_children] loop. *)
Fixpoint _wait_for_workers_poll (fuel : nat) (new_process : psutil.Process)
    (expected_children : Z) : M unit :=
  match fuel with
  | O => fun _ => None
  | S fuel' =>
      let* cs := children new_process in
      if decide (len cs < expected_children) then
        time.sleep 1;;
        _wait_for_workers_poll fuel' new_process expected_children
      else ret tt
  end.

Definition _wait_for_workers (fuel : nat) (overlap_ max_worker_wait_time_ : Z)
    (new_process old_process : psutil.Process) : M unit :=
  let* cs := children old_process in
  let current_workers := len cs - 1 in
  let expected_children := Z.max current_workers 1 in
  let maximum_time := max_worker_wait_time_ in
  try_except
    (timeout maximum_time
       (_wait_for_workers_poll fuel new_process expected_children);;
     log DEBUG (LFoundChildren expected_children (psutil.pid new_process) overlap_);;
     time.sleep overlap_)
    (fun e =>
       match e with
       | TimeoutError =>
           Some (log WARN (LNotReached expected_children maximum_time
                             (psutil.pid new_process)))
       | _ => None
       end).

Definition _kill_old_master (process : psutil.Process) : M unit :=
  log DEBUG (LSendingWINCH (psutil.pid process));;
  send_signal process SIGWINCH;;
  time.sleep 1;;
  log DEBUG (LSendingQUIT (psutil.pid process));;
  send_signal process SIGQUIT.

(** ** Herder methods *)

(** The command line of [spawn]; [None] is the final [else: return False]. *)
Definition spawn_cmd : M (option string) :=
  let* h := get self in
  match COMMANDS !! unicorn h with
  | Some cmd =>
      let* cmd := lift (format cmd [("pidfile", pidfile h); ("args", args h)]) in
      ret (Some cmd)
  | None =>
      if truthy (unicorn_bin h) then
        match COMMANDS !! "unicorn_bin" with
        | Some cmd =>
            let* cmd := lift (format cmd [("unicorn_bin", unicorn h);
                                          ("pidfile", pidfile h); ("args", args h)]) in
            ret (Some cmd)
        | None => raise (KeyError "unicorn_bin")
        end
      else if truthy (gunicorn_bin h) then
        match COMMANDS !! "gunicorn_bin" with
        | Some cmd =>
            let* cmd := lift (format cmd [("gunicorn_bin", unicorn h);
                                          ("pidfile", pidfile h); ("args", args h)]) in
            ret (Some cmd)
        | None => raise (KeyError "gunicorn_bin")
        end
      else ret None
  end.

(** [signal.signal(sig, handler)] *)
Definition signal_signal (sig : Signals) (h : handler) : M unit :=
  modify (fun st => set_handlers ((sig, h) :: handlers st) st).

Fixpoint install_forwarders (names : list string) : M unit :=
  match names with
  | [] => ret tt
  | sig :: rest =>
      match signal.getattr sig with
      | Some s => signal_signal s (Handle_signal sig);; install_forwarders rest
      | None => raise (AttributeError sig)
      end
  end.

Definition spawn : M bool :=
  let* h := get self in
  let* cmd := spawn_cmd in
  match cmd with
  | None => ret false
  | Some cmd =>
      log DEBUG (LCalling (unicorn h) cmd);;
      let cmd := shlex_split env cmd in
      let* launched :=
        try_except
          (let* process := Popen cmd in ret (Some process))
          (fun e =>
             match e with
             | OSError errno =>
                 Some (if decide (errno = 2) then
                         match head cmd with
                         | Some cmd0 => log ERROR (LNotFound cmd0);; ret None
                         | None => raise IndexError
                         end
                       else raise e)
             | _ => None
             end) in
      match launched with
      | None => ret false
      | Some process =>
          MANAGED_PIDS_add (subprocess.pid process);;
          let* daemonized :=
            try_except
              (timeout (boot_timeout h) (wait process);; ret true)
              (fun e =>
                 match e with
                 | TimeoutError =>
                     Some (log ERROR (LFailedToDaemonize (unicorn h) (boot_timeout h));;
                           let* running := poll process in
                           match running with
                           | None => terminate process
                           | Some _ => ret tt
                           end;;
                           ret false)
                 | _ => None
                 end) in
          if daemonized then
            (* unicorn has daemonized *)
            MANAGED_PIDS_remove (subprocess.pid process);;
            signal_signal SIGHUP Handle_HUP;;
            install_forwarders ["INT"; "QUIT"; "TERM"; "TTIN"; "TTOU"; "USR1"; "USR2"];;
            ret true
          else ret false
      end
  end.

(** The [while True] of [_read_pidfile], entered with [start]. *)
Fixpoint _read_pidfile_loop (fuel : nat) (start : Z) : M (option Z) :=
  match fuel with
  | O => fun _ => None
  | S fuel' =>
      let* h := get self in
      let* t := time.time in
      match pidfile_pid env (pidfile h) t with
      | Some p => ret (Some p)
      | None =>
          (* except PidfileError *)
          let* term := getself terminating in
          if term then ret None
          else
            log DEBUG LPidfileReadError;;
            log DEBUG LRetrying;;
            time.sleep 1;;
            let* t' := time.time in
            if decide (time.elapsed_exceeds t' start (pidfile_timeout h))
            then raise (HerderError (FailedToReadPidfile (pidfile h) (pidfile_timeout h)))
            else _read_pidfile_loop fuel' start
      end
  end.

Definition _read_pidfile (fuel : nat) : M (option Z) :=
  let* start := time.time in
  _read_pidfile_loop fuel start.

Definition _loop_inner (fuel : nat) : M bool :=
  let* h := get self in
  let old_master := master h in
  let* pid := _read_pidfile fuel in
  match pid with
  | None => ret false
  | Some pid =>
      let* found :=
        try_except
          (let* p := psutil_Process pid in
           setself (set_master (Some p));;
           ret (Some p))
          (fun e =>
             match e with
             | NoSuchProcess _ => Some (ret None)
             | _ => None
             end) in
      match found with
      | None => ret false
      | Some self_master =>
          match old_master with
          | None =>
              log INFO (LBooted (unicorn h) (psutil.pid self_master));;
              MANAGED_PIDS_add (psutil.pid self_master)
          | Some _ => ret tt
          end;;
          (* Unicorn has forked a new master *)
          match old_master with
          | Some old_master =>
              if decide (psutil.pid self_master ≠ psutil.pid old_master) then
                log INFO (LChangedPid (unicorn h) (psutil.pid old_master)
                                      (psutil.pid self_master));;
                MANAGED_PIDS_add (psutil.pid self_master);;
                let* r := getself reloading in
                (if r then
                   _wait_for_workers fuel (overlap h) (max_worker_wait_time h)
                                     self_master old_master;;
                   _kill_old_master old_master;;
                   setself (set_reloading false)
                 else ret tt);;
                MANAGED_PIDS_remove (psutil.pid old_master)
              else ret tt
          | None => ret tt
          end;;
          ret true
      end
  end.

(** [loop]: at most [n] iterations of the [while True]. *)
Fixpoint loop_iter (n : nat) (fuel : nat) : M Z :=
  match n with
  | O => fun _ => None
  | S n' =>
      let* ok := _loop_inner fuel in
      if negb ok then
        (* The unicorn has died. So should we. *)
        let* u := getself unicorn in
        log ERROR (LDied u);;
        ret 1
      else
        time.sleep 2;;
        loop_iter n' fuel
  end.

Definition loop (fuel : nat) : M Z := loop_iter fuel fuel.

(** The handler made by [_handle_signal(name)], called with [signum]. *)
Definition _handle_signal (name : string) (signum : Signals) : M unit :=
  let* m := getself master in
  match m with
  | None => log WARN (LNoTracked name)
  | Some m =>
      (if bool_decide (signum ∈ [SIGINT; SIGQUIT; SIGTERM]) then
         log DEBUG (LExpectingTermination name);;
         setself (set_terminating true)
       else ret tt);;
      log DEBUG (LForwarding name (psutil.pid m));;
      send_signal m signum
  end.

Definition _handle_HUP (signum : Signals) : M unit :=
  let* m := getself master in
  match m with
  | None => log WARN (LNoTracked "HUP")
  | Some m =>
      log INFO (LCaughtHUP (psutil.pid m));;
      setself (set_reloading true);;
      send_signal m SIGUSR2
  end.

(** Dispatch of a delivered signal to the handler installed for it. *)
Definition deliver (sig : Signals) : M unit :=
  let* hs := get handlers in
  match list_find (fun sh => sh.1 = sig) hs with
  | Some (_, (_, Handle_HUP)) => _handle_HUP sig
  | Some (_, (_, Handle_signal name)) => _handle_signal name sig
  | None => ret tt
  end.

(** The [atexit] hook: kill every pid still in [MANAGED_PIDS], ignoring
    every error. *)
Fixpoint _emergency_slaughter_over (pids : list Z) : M unit :=
  match pids with
  | [] => ret tt
  | pid :: rest =>
      try_except
        (let* proc := psutil_Process pid in send_signal proc SIGKILL)
        (fun _ => Some (ret tt));;
      _emergency_slaughter_over rest
  end.

Definition _emergency_slaughter : M unit :=
  let* s := get MANAGED_PIDS in
  _emergency_slaughter_over (elements s).

End Program.

(** ** Observations on runs *)

(** The signals delivered in a stretch of the trace: time, pid, signal. *)
Definition sent_of (e : event) : option (Z * Z * Signals) :=
  match e with
  | Sent t p sig => Some (t, p, sig)
  | Log _ _ => None
  end.

Definition signals_sent (tr : list event) : list (Z * Z * Signals) :=
  omap sent_of tr.

(** What the handover routines leave alone: the Herder object, the
    registry and the installed handlers. *)
Definition frame (st st' : State) : Prop :=
  self st' = self st /\ MANAGED_PIDS st' = MANAGED_PIDS st
  /\ handlers st' = handlers st.

(** ** Concrete inputs *)

(** The Herder built by [Herder()] with every default. *)
Definition herder0 : Herder :=
  {| unicorn := "gunicorn"; unicorn_bin := None; gunicorn_bin := None;
     pidfile := "gunicorn.pid"; args := EmptyString;
     boot_timeout := 180; pidfile_timeout := 180; overlap := 180;
     max_worker_wait_time := 180;
     master := None; reloading := false; terminating := false |}.

Definition state0 (h : Herder) : State :=
  {| now := 0; alarm := None; MANAGED_PIDS := ∅; self := h;
     handlers := []; trace := [] |}.

(** A machine on which nothing runs and no pidfile exists; a launched
    process gets pid 4242 and never exits. *)
Definition env_dead : Env :=
  {| pidfile_pid := fun _ _ => None;
     running := fun _ _ => false;
     child_pids := fun _ _ => [];
     shlex_split := fun s => [s];
     popen := fun _ _ => Ret 4242;
     exits_at := fun _ => None |}.

(** A machine on which every pid runs for ever.  The pidfile names pid
    100 up to time 9 and pid 200 from time 10 on; process 100 has five
    children, process 200 has as many children as seconds have passed
    since time 10. *)
Definition env_live : Env :=
  {| pidfile_pid := fun _ t => if decide (t < 10) then Some 100 else Some 200;
     running := fun _ _ => true;
     child_pids := fun t p =>
       if decide (p = 100) then [200; 101; 102; 103; 104]
       else if decide (p = 200) then Z.of_nat <$> seq 0 (Z.to_nat (t - 10))
       else [];
     shlex_split := fun s => [s];
     popen := fun _ _ => Ret 4242;
     exits_at := fun _ => Some 3 |}.

(** A Herder tracking master 100 after a HUP, at time 10, when the
    pidfile starts to name 200; and the state one iteration later. *)
Definition herder_reloading : Herder :=
  set_reloading true (set_master (Some {| psutil.pid := 100 |}) herder0).

Definition st_reload : State :=
  {| now := 10; alarm := None; MANAGED_PIDS := {[ 100 ]};
     self := herder_reloading; handlers := []; trace := [] |}.

Definition st_reloaded : State :=
  {| now := 195; alarm := None; MANAGED_PIDS := {[ 200 ]};
     self := set_master (Some {| psutil.pid := 200 |}) herder0;
     handlers := [];
     trace := [Log INFO (LChangedPid "gunicorn" 100 200);
               Log DEBUG (LFoundChildren 4 200 180);
               Log DEBUG (LSendingWINCH 100); Sent 194 100 SIGWINCH;
               Log DEBUG (LSendingQUIT 100); Sent 195 100 SIGQUIT] |}.


(** A Herder tracking master 100 after an INT, QUIT or TERM was forwarded. *)
Definition herder_terminating : Herder :=
  set_terminating true (set_master (Some {| psutil.pid := 100 |}) herder0).

Definition st_terminating : State :=
  {| now := 50; alarm := None; MANAGED_PIDS := {[ 100 ]};
     self := herder_terminating; handlers := []; trace := [] |}.

(** A machine like [env_live] on which the launched process never
    daemonizes: pid 4242 stays in the foreground for ever. *)
Definition env_stuck : Env :=
  {| pidfile_pid := pidfile_pid env_live;
     running := running env_live;
     child_pids := child_pids env_live;
     shlex_split := shlex_split env_live;
     popen := popen env_live;
     exits_at := fun _ => None |}.

(** A graceful reload from start to end on [env_live]: boot, first
    iteration, HUP, eight seconds later the iteration that sees the new
    master, then an INT.  The result is the list of signals sent. *)
Definition reload_scenario : M (list (Z * Z * Signals)) :=
  spawn env_live;;
  _loop_inner env_live 181;;
  deliver env_live SIGHUP;;
  time.sleep 8;;
  _loop_inner env_live 181;;
  deliver env_live SIGINT;;
  get (fun st => signals_sent (trace st)).

(** The state [spawn] leaves on [env_stuck] with the default Herder. *)
Definition st_boot_failed : State :=
  {| now := 180; alarm := None; MANAGED_PIDS := {[ 4242 ]}; self := herder0;
     handlers := [];
     trace := [Log DEBUG (LCalling "gunicorn"
                            ("gunicorn -D -p " ++ dq ++ "gunicorn.pid" ++ dq ++ " "));
               Log ERROR (LFailedToDaemonize "gunicorn" 180);
               Sent 180 4242 SIGTERM] |}.

(** Whether a launched process is still running at time [t]. *)
Definition running_at (env : Env) (p t : Z) : bool :=
  match exits_at env p with
  | Some te => negb (bool_decide (te <= t))
  | None => true
  end.

(** ** Claims as the specification words them, for the refuted ones *)

(** The monitor loop exits with status zero when the pidfile is unreadable
    while [terminating] is set. *)
Definition clean_exit_when_terminating (env : Env) (st : State) : Prop :=
  terminating (self st) = true ->
  pidfile_pid env (pidfile (self st)) (now st) = None ->
  forall (fuel : nat) (status : Z) (st' : State),
    loop env fuel st = Some (Ret status, st') -> status = 0.

(** After [spawn] has failed on the boot timeout the registry no longer
    contains the pid [p] of the launched process. *)
Definition registry_cleared_after_boot_timeout (env : Env) (st : State) (p : Z) : Prop :=
  forall st',
    spawn env st = Some (Ret false, st') ->
    In (Log ERROR (LFailedToDaemonize (unicorn (self st)) (boot_timeout (self st))))
       (trace st') ->
    p ∉ MANAGED_PIDS st'.




(** [kill_old_master] never raises, whatever the old master's state. *)
Definition kill_old_master_never_raises (env : Env) : Prop :=
  forall (process : psutil.Process) (st : State) (e : exn) (st' : State),
    _kill_old_master env process st <> Some (Raise e, st').

(** ** Further observations *)

(** The handlers [spawn] installs, in the order the list ends up in. *)
Definition spawn_handlers : list (Signals * handler) :=
  [(SIGUSR2, Handle_signal "USR2"); (SIGUSR1, Handle_signal "USR1");
   (SIGTTOU, Handle_signal "TTOU"); (SIGTTIN, Handle_signal "TTIN");
   (SIGTERM, Handle_signal "TERM"); (SIGQUIT, Handle_signal "QUIT");
   (SIGINT, Handle_signal "INT"); (SIGHUP, Handle_HUP)].

(** The tracked master, if any, is in the registry. *)
Definition master_registered (st : State) : Prop :=
  forall m, master (self st) = Some m -> psutil.pid m ∈ MANAGED_PIDS st.

(** A machine whose pidfile always names pid 100, a process that runs up
    to time 5 and is gone from then on. *)
Definition env_dies : Env :=
  {| pidfile_pid := fun _ _ => Some 100;
     running := fun t _ => bool_decide (t < 5);
     child_pids := fun _ _ => [];
     shlex_split := fun s => [s];
     popen := fun _ _ => Ret 4242;
     exits_at := fun _ => Some 3 |}.

(** A machine like [env_live] whose pidfile holds a negative number. *)
Definition env_corrupt : Env :=
  {| pidfile_pid := fun _ _ => Some (-1);
     running := running env_live;
     child_pids := child_pids env_live;
     shlex_split := shlex_split env_live;
     popen := popen env_live;
     exits_at := exits_at env_live |}.

(** The default Herder tracking master 100, at time 0. *)
Definition st_tracking : State :=
  {| now := 0; alarm := None; MANAGED_PIDS := {[ 100 ]};
     self := set_master (Some {| psutil.pid := 100 |}) herder0;
     handlers := []; trace := [] |}.

(** A machine like [env_live] whose pidfile cannot be read before time 3
    and names pid 100 from then on. *)
Definition env_late : Env :=
  {| pidfile_pid := fun _ t => if decide (t < 3) then None else Some 100;
     running := running env_live;
     child_pids := child_pids env_live;
     shlex_split := shlex_split env_live;
     popen := popen env_live;
     exits_at := exits_at env_live |}.

(** A machine like [env_live] whose pidfile has been removed. *)
Definition env_unlinked : Env :=
  {| pidfile_pid := fun _ _ => None;
     running := running env_live;
     child_pids := child_pids env_live;
     shlex_split := shlex_split env_live;
     popen := popen env_live;
     exits_at := exits_at env_live |}.

(** The kill signals the exit hook sends at time [t] for a list of pids:
    one SIGKILL for each pid that runs. *)
Definition slaughtered (env : Env) (t : Z) (pids : list Z) : list (Z * Z * Signals) :=
  (fun p => (t, p, SIGKILL)) <$> filter (fun p => alive env t p = true) pids.

(** ** Proof automation for the monad *)

Ltac unfold_m :=
  cbv beta iota delta
    [bind ret raise lift get getself modify setself log try_except
     time.time time.sleep] in *.

(** ** Theorems *)

Example format_unicorn :
  format (default EmptyString (COMMANDS !! "unicorn")) [("pidfile", "u.pid"); ("args", "-c x")]
  = Ret ("unicorn -D -P " ++ dq ++ "u.pid" ++ dq ++ " -c x").
Proof. vm_compute. reflexivity. Qed.

Example init_defaults : Herder_default = Ret herder0.
Proof. vm_compute. reflexivity. Qed.

(** C6. Constructing a Herder with a flavor that is a key of [COMMANDS]
    never raises, whatever the other arguments; constructing one with a
    flavor that is not a key, and with neither [unicorn_bin] nor
    [gunicorn_bin] given, raises [HerderError] from the constructor. *)
Theorem init_flavor_check
    (unicorn_ : string) (unicorn_bin_ gunicorn_bin_ pidfile_ : option string)
    (bt pt ov mw : Z) (args_ : string) :
  (is_Some (COMMANDS !! unicorn_) ->
   exists h, __init__ unicorn_ unicorn_bin_ gunicorn_bin_ pidfile_ bt pt ov mw args_ = Ret h)
  /\ (COMMANDS !! unicorn_ = None ->
      truthy unicorn_bin_ = false -> truthy gunicorn_bin_ = false ->
      __init__ unicorn_ unicorn_bin_ gunicorn_bin_ pidfile_ bt pt ov mw args_
      = Raise (HerderError (UnknownUnicornType unicorn_))).
Proof.
  split.
  - intros [tpl Htpl]. unfold __init__.
    destruct (truthy unicorn_bin_) eqn:Hu; simpl; [eauto|].
    destruct (truthy gunicorn_bin_) eqn:Hg; simpl; [eauto|].
    rewrite Htpl. eauto.
  - intros Hnone Hu Hg. unfold __init__. rewrite Hu, Hg. simpl.
    rewrite Hnone. reflexivity.
Qed.

Lemma init_flavor_check_witness :
  (exists h, __init__ "unicorn" None None None 180 180 180 180 EmptyString = Ret h)
  /\ __init__ "puma" None None None 180 180 180 180 EmptyString
     = Raise (HerderError (UnknownUnicornType "puma")).
Proof.
  split.
  - apply (proj1 (init_flavor_check "unicorn" None None None 180 180 180 180 EmptyString)).
    vm_compute. eauto.
  - apply (proj2 (init_flavor_check "puma" None None None 180 180 180 180 EmptyString));
      reflexivity.
Defined.

(** C9. With no master tracked, the forwarding handler (for any signal
    number) and the HUP handler return without raising; the Herder object,
    and so [reloading] and [terminating], is unchanged, and no signal is
    sent: the only effect is one warning in the log. *)
Theorem handlers_without_master (env : Env) (name : string) (signum : Signals)
    (st : State) :
  master (self st) = None ->
  (exists st', _handle_signal env name signum st = Some (Ret tt, st')
     /\ self st' = self st
     /\ signals_sent (trace st') = signals_sent (trace st)
     /\ trace st' = (trace st ++ [Log WARN (LNoTracked name)])%list)
  /\ (exists st', _handle_HUP env signum st = Some (Ret tt, st')
     /\ self st' = self st
     /\ signals_sent (trace st') = signals_sent (trace st)
     /\ trace st' = (trace st ++ [Log WARN (LNoTracked "HUP")])%list).
Proof.
  intros Hm. unfold _handle_signal, _handle_HUP. unfold_m. rewrite Hm.
  split; eexists; (split; [reflexivity|]); simpl;
    (repeat split; try reflexivity);
    unfold signals_sent; rewrite omap_app; simpl; apply app_nil_r.
Qed.

Lemma handlers_without_master_witness :
  master (self (state0 herder0)) = None
  /\ exists st', _handle_HUP env_dead SIGHUP (state0 herder0) = Some (Ret tt, st')
     /\ self st' = herder0
     /\ signals_sent (trace st') = []
     /\ trace st' = [Log WARN (LNoTracked "HUP")].
Proof.
  split; [reflexivity|].
  exact (proj2 (handlers_without_master env_dead "INT" SIGHUP (state0 herder0) eq_refl)).
Defined.

(** C10. If [terminating] is set when the pidfile read fails, the first
    failure makes [_read_pidfile] return [None] at once: the clock has not
    moved (no sleep), nothing was logged, and the state is the one it was
    called in, whatever [pidfile_timeout] is. *)
Theorem read_pidfile_while_terminating (env : Env) (fuel : nat) (st : State) :
  terminating (self st) = true ->
  pidfile_pid env (pidfile (self st)) (now st) = None ->
  _read_pidfile env (S fuel) st = Some (Ret None, st).
Proof.
  intros Hterm Hfail. unfold _read_pidfile. simpl. unfold_m.
  rewrite Hfail, Hterm. reflexivity.
Qed.

Lemma read_pidfile_while_terminating_witness :
  _read_pidfile env_dead 1 (state0 (set_terminating true herder0))
  = Some (Ret None, state0 (set_terminating true herder0)).
Proof.
  apply (read_pidfile_while_terminating env_dead 0
           (state0 (set_terminating true herder0))); reflexivity.
Defined.

(** C7. In every execution of [_kill_old_master]: WINCH is sent to the old
    master first, at the time of the call, exactly when the old master
    runs then; QUIT is sent to it one second later, exactly when WINCH was
    sent, the one-second sleep was not cut short by a pending deadline,
    and the old master still runs; nothing else is sent.  The call returns
    exactly when both were sent, and otherwise raises at the step that
    failed. *)
Theorem kill_old_master_signal_order (env : Env) (process : psutil.Process)
    (st : State) :
  let p := psutil.pid process in
  let up1 := alive env (now st) p in
  let slept :=
    match alarm st with
    | None => true
    | Some dl => bool_decide (now st + 1 < dl)
    end in
  let up2 := alive env (now st + 1) p in
  exists st' evs,
    _kill_old_master env process st
    = Some (if negb up1 then Raise (NoSuchProcess p)
            else if negb slept then Raise TimeoutError
            else if up2 then Ret tt
            else Raise (NoSuchProcess p), st')
    /\ trace st' = (trace st ++ evs)%list
    /\ signals_sent evs
       = (if up1
          then (now st, p, SIGWINCH)
               :: (if slept && up2 then [(now st + 1, p, SIGQUIT)] else [])
          else []).
Proof.
  intros p up1 slept up2. subst p up1 slept up2.
  unfold _kill_old_master, send_signal. unfold_m. simpl.
  destruct (alive env (now st) (psutil.pid process)) eqn:Ha1; simpl.
  2:{ eexists _, [_]. split; [reflexivity|]. simpl. split; reflexivity. }
  unfold block; simpl.
  destruct (alarm st) as [dl|] eqn:Hal; simpl.
  - destruct (decide (now st + 1 < dl)) as [Hlt|Hge]; simpl.
    + rewrite (bool_decide_eq_true_2 _ Hlt). simpl.
      destruct (alive env (now st + 1) (psutil.pid process)) eqn:Ha2; simpl.
      * eexists _, [_; _; _; _]. split; [reflexivity|]. simpl.
        rewrite <- !app_assoc. split; reflexivity.
      * eexists _, [_; _; _]. split; [reflexivity|]. simpl.
        rewrite <- !app_assoc. split; reflexivity.
    + rewrite (bool_decide_eq_false_2 _ Hge). simpl.
      eexists _, [_; _]. split; [reflexivity|]. simpl.
      rewrite <- !app_assoc. split; reflexivity.
  - destruct (alive env (now st + 1) (psutil.pid process)) eqn:Ha2; simpl.
    + eexists _, [_; _; _; _]. split; [reflexivity|]. simpl.
      rewrite <- !app_assoc. split; reflexivity.
    + eexists _, [_; _; _]. split; [reflexivity|]. simpl.
      rewrite <- !app_assoc. split; reflexivity.
Qed.

Lemma kill_old_master_signal_order_witness :
  exists st' evs,
    _kill_old_master env_live {| psutil.pid := 100 |} (state0 herder0)
    = Some (Ret tt, st')
    /\ trace st' = ([] ++ evs)%list
    /\ signals_sent evs = [(0, 100, SIGWINCH); (0 + 1, 100, SIGQUIT)].
Proof.
  exact (kill_old_master_signal_order env_live {| psutil.pid := 100 |} (state0 herder0)).
Defined.

(** C3, as stated, fails: the old master of [env_dead] has already exited,
    the first [send_signal] raises [NoSuchProcess], and nothing in
    [_kill_old_master] catches it. *)
Lemma kill_old_master_raises_when_gone :
  ~ kill_old_master_never_raises env_dead.
Proof.
  intros H.
  apply (H {| psutil.pid := 100 |} (state0 herder0) (NoSuchProcess 100)
           (emit (Log DEBUG (LSendingWINCH 100)) (state0 herder0))).
  reflexivity.
Qed.

(** C3, amended. [_kill_old_master] has no exception handling of its own.
    Called with no deadline pending, it returns normally exactly when the
    old master is running at both sends (now and one second later); when
    the process is gone at either send, psutil's [NoSuchProcess] for that
    pid propagates to the caller. *)
Theorem kill_old_master_outcome (env : Env) (process : psutil.Process)
    (st : State) :
  alarm st = None ->
  let p := psutil.pid process in
  exists out st',
    _kill_old_master env process st = Some (out, st')
    /\ (out = Ret tt <->
        alive env (now st) p = true /\ alive env (now st + 1) p = true)
    /\ (out <> Ret tt -> out = Raise (NoSuchProcess p)).
Proof.
  intros Hal p. subst p. unfold _kill_old_master, send_signal. unfold_m. simpl.
  destruct (alive env (now st) (psutil.pid process)) eqn:Ha1; simpl.
  2:{ eexists _, _. split; [reflexivity|]. split; [|auto].
      split; [discriminate|]. intros [? _]. discriminate. }
  unfold block; simpl. rewrite Hal. simpl.
  destruct (alive env (now st + 1) (psutil.pid process)) eqn:Ha2; simpl.
  - eexists _, _. split; [reflexivity|]. split; [tauto|]. congruence.
  - eexists _, _. split; [reflexivity|]. split; [|auto].
    split; [discriminate|]. intros [_ ?]. discriminate.
Qed.

Lemma kill_old_master_outcome_witness :
  alarm (state0 herder0) = None
  /\ exists out st',
    _kill_old_master env_live {| psutil.pid := 100 |} (state0 herder0) = Some (out, st')
    /\ (out = Ret tt <-> true = true /\ true = true)
    /\ (out <> Ret tt -> out = Raise (NoSuchProcess 100)).
Proof.
  split; [reflexivity|].
  exact (kill_old_master_outcome env_live {| psutil.pid := 100 |} (state0 herder0) eq_refl).
Defined.

(** *** The handover: waiting for workers *)

Lemma len_fmap {A B} (f : A -> B) (l : list A) : len (f <$> l) = len l.
Proof. unfold len. now rewrite length_fmap. Qed.

Lemma set_now_same (st : State) : set_now (now st) st = st.
Proof. now destruct st. Qed.

(** The polling loop under a pending deadline [dl]: it stops at the first
    second [t'] at which the new master has [exp] children, if that second
    comes strictly before the deadline (or at once); otherwise the sleep
    that reaches the deadline raises [TimeoutError]. *)
Lemma poll_spec (env : Env) (q exp dl : Z) :
  forall (fuel : nat) (st : State),
    alarm st = Some dl ->
    (forall t, now st <= t -> t = now st \/ t < dl -> alive env t q = true) ->
    (Z.to_nat (dl - now st) < fuel)%nat ->
    (exists t', now st <= t' /\ (t' = now st \/ t' < dl)
       /\ exp <= len (child_pids env t' q)
       /\ (forall t, now st <= t < t' -> len (child_pids env t q) < exp)
       /\ _wait_for_workers_poll env fuel {| psutil.pid := q |} exp st
          = Some (Ret tt, set_now t' st))
    \/ ((forall t, now st <= t -> t = now st \/ t < dl ->
           len (child_pids env t q) < exp)
        /\ _wait_for_workers_poll env fuel {| psutil.pid := q |} exp st
           = Some (Raise TimeoutError,
                   set_alarm None (set_now (Z.max (now st) dl) st))).
Proof.
  induction fuel as [|fuel IH]; intros st Hal Halive Hfuel; [lia|].
  simpl. unfold children. unfold_m. simpl.
  assert (Ha : alive env (now st) q = true) by (apply Halive; lia).
  rewrite Ha.
  rewrite len_fmap.
  destruct (decide (len (child_pids env (now st) q) < exp)) as [Hlt|Hge].
  - destruct (decide (1 < 0)) as [?|_]; [lia|].
    unfold block. rewrite Hal.
    destruct (decide (now st + 1 < dl)) as [Hin|Hout].
    + destruct (IH (set_now (now st + 1) st)) as [(t' & H1 & H2 & H3 & H4 & H5)|[H1 H2]].
      * exact Hal.
      * simpl. intros t Ht Ht'. apply Halive; lia.
      * simpl. lia.
      * left. exists t'. simpl in *. repeat split; try lia; auto.
        intros t Ht. destruct (decide (t = now st)) as [->|]; [auto|].
        apply H4. lia.
      * right. simpl in *. split.
        -- intros t Ht Ht'. destruct (decide (t = now st)) as [->|]; [auto|].
           apply H1; lia.
        -- rewrite H2. do 2 f_equal. unfold set_alarm, set_now. simpl.
           f_equal. lia.
    + right. split.
      * intros t Ht Ht'. assert (t = now st) as -> by lia. auto.
      * reflexivity.
  - left. exists (now st). rewrite set_now_same.
    repeat split; auto; lia.
Qed.

(** [_wait_for_workers] with both masters running: it returns, either
    after reaching the target and holding for [ov] seconds, or at the
    deadline with a warning. *)
Lemma wait_for_workers_spec (env : Env) (fuel : nat) (ov T : Z)
    (new old : psutil.Process) (st : State) :
  let q := psutil.pid new in
  let exp := Z.max (len (child_pids env (now st) (psutil.pid old)) - 1) 1 in
  0 <= ov ->
  alive env (now st) (psutil.pid old) = true ->
  (forall t, now st <= t -> t = now st \/ t < now st + T -> alive env t q = true) ->
  (Z.to_nat T < fuel)%nat ->
  exists st',
    _wait_for_workers env fuel ov T new old st = Some (Ret tt, st')
    /\ frame st st' /\ alarm st' = None
    /\ ((exists t', now st <= t' /\ (t' = now st \/ t' < now st + T)
           /\ exp <= len (child_pids env t' q)
           /\ (forall t, now st <= t < t' -> len (child_pids env t q) < exp)
           /\ now st' = t' + ov
           /\ trace st' = (trace st ++ [Log DEBUG (LFoundChildren exp q ov)])%list)
        \/ ((forall t, now st <= t -> t = now st \/ t < now st + T ->
               len (child_pids env t q) < exp)
            /\ now st' = Z.max (now st) (now st + T)
            /\ trace st' = (trace st ++ [Log WARN (LNotReached exp T q)])%list)).
Proof.
  intros q exp Hov Hold Hnew Hfuel. subst q.
  destruct new as [q]. simpl in *.
  unfold _wait_for_workers, children, timeout. unfold_m. simpl.
  rewrite Hold, len_fmap. fold exp.
  destruct (poll_spec env q exp (now st + T) fuel
              (set_alarm (Some (now st + T)) st))
    as [(t' & H1 & H2 & H3 & H4 & H5)|[H1 H2]]; simpl in *;
    try reflexivity; auto; try (replace (now st + T - now st) with T by lia; lia).
  - rewrite H5. simpl.
    destruct (decide (ov < 0)) as [?|_]; [lia|].
    unfold block. simpl.
    eexists. split; [reflexivity|]. simpl.
    split; [repeat split|]. split; [reflexivity|].
    left. exists t'. repeat split; auto.
  - rewrite H2. simpl.
    eexists. split; [reflexivity|]. simpl.
    split; [repeat split|]. split; [reflexivity|].
    right. repeat split; auto.
Qed.

(** C5. [_wait_for_workers] takes as its target
    [max(len(old.children()) - 1, 1)], the number it logs, and polls the new
    master once a second: at every second before it stops the new master
    had fewer children than the target, and when it stops without timing
    out the new master has at least that many. *)
Theorem wait_for_workers_expected_children (env : Env) (fuel : nat) (ov T : Z)
    (new old : psutil.Process) (st : State) :
  let q := psutil.pid new in
  let expected_children :=
    Z.max (len (child_pids env (now st) (psutil.pid old)) - 1) 1 in
  0 <= ov ->
  alive env (now st) (psutil.pid old) = true ->
  (forall t, now st <= t -> t = now st \/ t < now st + T -> alive env t q = true) ->
  (Z.to_nat T < fuel)%nat ->
  exists st' t',
    _wait_for_workers env fuel ov T new old st = Some (Ret tt, st')
    /\ now st <= t'
    /\ (forall t, now st <= t < t' ->
          len (child_pids env t q) < expected_children)
    /\ ((expected_children <= len (child_pids env t' q)
         /\ last (trace st') = Some (Log DEBUG (LFoundChildren expected_children q ov)))
        \/ (t' = Z.max (now st) (now st + T)
            /\ last (trace st') = Some (Log WARN (LNotReached expected_children T q)))).
Proof.
  intros q exp Hov Hold Hnew Hfuel.
  destruct (wait_for_workers_spec env fuel ov T new old st Hov Hold Hnew Hfuel)
    as (st' & Hrun & _ & _ & [(t' & H1 & H2 & H3 & H4 & H5 & H6)|(H1 & H2 & H3)]).
  - exists st', t'. split; [exact Hrun|]. split; [lia|]. split.
    + intros t Ht. apply H4; lia.
    + left. split; [exact H3|]. rewrite H6. apply last_snoc.
  - exists st', (Z.max (now st) (now st + T)).
    split; [exact Hrun|]. split; [lia|]. split.
    + intros t Ht. apply H1; lia.
    + right. split; [reflexivity|]. rewrite H3. apply last_snoc.
Qed.

Lemma wait_for_workers_expected_children_witness :
  exists st' t',
    _wait_for_workers env_live 181 180 180 {| psutil.pid := 200 |}
      {| psutil.pid := 100 |} (set_now 10 (state0 herder0)) = Some (Ret tt, st')
    /\ 10 <= t'
    /\ (forall t, 10 <= t < t' -> len (child_pids env_live t 200) < 4)
    /\ ((4 <= len (child_pids env_live t' 200)
         /\ last (trace st') = Some (Log DEBUG (LFoundChildren 4 200 180)))
        \/ (t' = Z.max 10 (10 + 180)
            /\ last (trace st') = Some (Log WARN (LNotReached 4 180 200)))).
Proof.
  apply (wait_for_workers_expected_children env_live 181 180 180
           {| psutil.pid := 200 |} {| psutil.pid := 100 |}
           (set_now 10 (state0 herder0))).
  - lia.
  - reflexivity.
  - reflexivity.
  - simpl. lia.
Defined.

(** The scenario of the specification: the old master has five children,
    the new one gains one child a second; the target is four and it is
    reached after four seconds, then held for the overlap. *)
Example wait_for_workers_five_children :
  _wait_for_workers env_live 181 180 180 {| psutil.pid := 200 |}
    {| psutil.pid := 100 |} (set_now 10 (state0 herder0))
  = Some (Ret tt,
          {| now := 194; alarm := None; MANAGED_PIDS := ∅; self := herder0;
             handlers := [];
             trace := [Log DEBUG (LFoundChildren 4 200 180)] |}).
Proof. vm_compute. reflexivity. Qed.

(** An old master with no children, or one, gives the target 1. *)
Example wait_for_workers_no_children :
  _wait_for_workers env_live 4 2 3 {| psutil.pid := 200 |}
    {| psutil.pid := 300 |} (set_now 10 (state0 herder0))
  = Some (Ret tt,
          {| now := 13; alarm := None; MANAGED_PIDS := ∅; self := herder0;
             handlers := [];
             trace := [Log DEBUG (LFoundChildren 1 200 2)] |}).
Proof. vm_compute. reflexivity. Qed.




(** A new master that never gets its workers: the wait ends at the
    deadline with the warning, and the overlap is not slept. *)
Example wait_for_workers_times_out :
  _wait_for_workers env_live 4 5 3 {| psutil.pid := 300 |}
    {| psutil.pid := 100 |} (state0 herder0)
  = Some (Ret tt,
          {| now := 3; alarm := None; MANAGED_PIDS := ∅; self := herder0;
             handlers := [];
             trace := [Log WARN (LNotReached 4 3 300)] |}).
Proof. vm_compute. reflexivity. Qed.

(** *** The monitor loop: a change of master *)

Lemma frame_refl st : frame st st.
Proof. now repeat split. Qed.

Lemma frame_trans st1 st2 st3 : frame st1 st2 -> frame st2 st3 -> frame st1 st3.
Proof. unfold frame. intros (?&?&?) (?&?&?). repeat split; congruence. Qed.

Lemma block_inv (d : option Z) (st : State) out st' :
  block d st = Some (out, st') -> frame st st' /\ trace st' = trace st.
Proof.
  unfold block. intros H.
  destruct (alarm st), d; try destruct (decide _); inversion H; subst;
    now repeat split.
Qed.

Lemma sleep_inv (secs : Z) (st : State) out st' :
  time.sleep secs st = Some (out, st') -> frame st st' /\ trace st' = trace st.
Proof.
  unfold time.sleep. destruct (decide (secs < 0)).
  - unfold raise. intros H; inversion H; subst. now repeat split.
  - apply block_inv.
Qed.

Lemma poll_inv (env : Env) (new : psutil.Process) (exp : Z) :
  forall (fuel : nat) (st : State) out st',
    _wait_for_workers_poll env fuel new exp st = Some (out, st') ->
    frame st st' /\ trace st' = trace st.
Proof.
  induction fuel as [|fuel IH]; intros st out st' H; [discriminate|].
  simpl in H. unfold children in H.
  cbv beta iota delta [bind ret raise get time.time] in H.
  destruct (alive env (now st) (psutil.pid new)).
  - destruct (decide _).
    + destruct (time.sleep 1 st) as [[[[]|e] st1]|] eqn:Hs; [| |discriminate].
      * apply sleep_inv in Hs. apply IH in H. destruct Hs, H.
        split; [eapply frame_trans; eauto | congruence].
      * inversion H; subst. eapply sleep_inv; eauto.
    + inversion H; subst. split; [apply frame_refl | reflexivity].
  - inversion H; subst. split; [apply frame_refl | reflexivity].
Qed.

Lemma read_pidfile_loop_inv (env : Env) (start : Z) :
  forall (fuel : nat) (st : State) out st',
    _read_pidfile_loop env fuel start st = Some (out, st') ->
    frame st st' /\ signals_sent (trace st') = signals_sent (trace st).
Proof.
  induction fuel as [|fuel IH]; intros st out st' H; [discriminate|].
  simpl in H.
  cbv beta iota delta [bind ret raise get getself modify log time.time] in H.
  destruct (pidfile_pid env (pidfile (self st)) (now st)).
  - inversion H; subst. split; [apply frame_refl|reflexivity].
  - destruct (terminating (self st)).
    + inversion H; subst. split; [apply frame_refl|reflexivity].
    + destruct (time.sleep 1 _) as [[[[]|e] st1]|] eqn:Hs; [| |discriminate].
      * apply sleep_inv in Hs. destruct Hs as [Hf Ht]. simpl in Hf, Ht.
        assert (Hfr : frame st st1).
        { destruct Hf as (?&?&?). simpl in *. repeat split; congruence. }
        assert (Hsg : signals_sent (trace st1) = signals_sent (trace st)).
        { rewrite Ht. unfold signals_sent. rewrite !omap_app. simpl.
          now rewrite !app_nil_r. }
        destruct (decide _).
        -- inversion H; subst. auto.
        -- apply IH in H. destruct H as [Hf2 Ht2].
           split; [eapply frame_trans; eauto|congruence].
      * inversion H; subst. apply sleep_inv in Hs. destruct Hs as [Hf Ht].
        simpl in Hf, Ht. split.
        -- destruct Hf as (?&?&?). simpl in *. repeat split; congruence.
        -- rewrite Ht. unfold signals_sent. rewrite !omap_app. simpl.
           now rewrite !app_nil_r.
Qed.

Lemma registry_handover_in (p o : Z) (s : gset Z) :
  p <> o -> p ∈ ({[p]} ∪ s) ∖ {[o]}.
Proof.
  intros Hne. apply elem_of_difference. split.
  - apply elem_of_union_l, elem_of_singleton. reflexivity.
  - rewrite elem_of_singleton. exact Hne.
Qed.


Lemma alive_nonneg (env : Env) (t p : Z) : alive env t p = true -> 0 <= p.
Proof.
  unfold alive. intros H. apply andb_true_iff in H. destruct H as [H _].
  apply bool_decide_eq_true in H. exact H.
Qed.

Lemma psutil_Process_alive (env : Env) (p : Z) (st : State) :
  alive env (now st) p = true ->
  psutil_Process env p st = Some (Ret {| psutil.pid := p |}, st).
Proof.
  intros Ha. unfold psutil_Process. pose proof (alive_nonneg _ _ _ Ha).
  destruct (decide (p < 0)); [lia|]. unfold_m. rewrite Ha. reflexivity.
Qed.





(** The concrete run behind the witness: four workers are up at second 14,
    the overlap ends at 194, WINCH goes out then and QUIT at 195. *)
Example loop_inner_reload_run :
  _loop_inner env_live 181 st_reload = Some (Ret true, st_reloaded).
Proof. vm_compute. reflexivity. Qed.

(** The same change of pid without a HUP before it: no wait, no signal,
    and the registry still hands over. *)
Example loop_inner_unrequested_change :
  _loop_inner env_live 181
    {| now := 10; alarm := None; MANAGED_PIDS := {[ 100 ]};
       self := set_master (Some {| psutil.pid := 100 |}) herder0;
       handlers := []; trace := [] |}
  = Some (Ret true,
          {| now := 10; alarm := None; MANAGED_PIDS := {[ 200 ]};
             self := set_master (Some {| psutil.pid := 200 |}) herder0;
             handlers := [];
             trace := [Log INFO (LChangedPid "gunicorn" 100 200)] |}).
Proof. vm_compute. reflexivity. Qed.

(** *** The monitor loop: exit status *)

(** C1, as stated, fails: with [terminating] set and the pidfile gone the
    loop returns 1, the one status it ever returns, not a zero. *)
Lemma loop_returns_one_when_terminating :
  ~ clean_exit_when_terminating env_dead st_terminating.
Proof.
  intros H.
  specialize (H eq_refl eq_refl 1%nat 1
                (emit (Log ERROR (LDied "gunicorn")) st_terminating) eq_refl).
  discriminate.
Qed.

Lemma loop_inner_master_gone (env : Env) (fuel : nat) (st : State) :
  (terminating (self st) = true
   /\ pidfile_pid env (pidfile (self st)) (now st) = None)
  \/ (exists p, pidfile_pid env (pidfile (self st)) (now st) = Some p
        /\ 0 <= p /\ alive env (now st) p = false) ->
  _loop_inner env (S fuel) st = Some (Ret false, st).
Proof.
  intros [[Hterm Hfail]|(p & Hp & Hpos & Hdead)];
    unfold _loop_inner, _read_pidfile, psutil_Process; simpl; unfold_m.
  - rewrite Hfail, Hterm. reflexivity.
  - rewrite Hp. simpl. destruct (decide (p < 0)); [lia|].
    rewrite Hdead. reflexivity.
Qed.

Lemma loop_iter_status (env : Env) (fuel : nat) :
  forall (n : nat) (st : State) (status : Z) (st' : State),
    loop_iter env n fuel st = Some (Ret status, st') -> status = 1.
Proof.
  induction n as [|n IH]; intros st status st' H; [discriminate|].
  simpl in H. cbv beta iota delta [bind ret getself get log modify] in H.
  destruct (_loop_inner env fuel st) as [[[[]|e] st1]|]; simpl in H;
    try discriminate.
  - destruct (time.sleep 2 st1) as [[[[]|e] st2]|]; try discriminate.
    eapply IH; eauto.
  - inversion H. reflexivity.
Qed.

(** C1, amended. Whenever the loop returns, from any state and after any
    number of iterations, the status is 1.  In particular, when the
    pidfile is unreadable while [terminating] is set, and likewise when the
    pid read is a non-negative number that names no running process
    (whatever [terminating] is), the loop logs the death and returns
    status 1 at once, without raising.  The status does not tell an
    operator's shutdown from an unexpected death. *)
Theorem loop_exit_status (env : Env) (st : State) :
  (forall (n : nat) (status : Z) (st' : State),
     loop env n st = Some (Ret status, st') -> status = 1)
  /\ (forall fuel : nat,
        (terminating (self st) = true
         /\ pidfile_pid env (pidfile (self st)) (now st) = None)
        \/ (exists p, pidfile_pid env (pidfile (self st)) (now st) = Some p
              /\ 0 <= p /\ alive env (now st) p = false) ->
        loop env (S fuel) st
        = Some (Ret 1, emit (Log ERROR (LDied (unicorn (self st)))) st)).
Proof.
  split.
  - intros n status st'. apply loop_iter_status.
  - intros fuel Hgone. unfold loop. simpl. unfold bind at 1.
    rewrite (loop_inner_master_gone env fuel st Hgone). reflexivity.
Qed.

Lemma loop_exit_status_witness :
  1 = 1
  /\ loop env_dead 1 st_terminating
     = Some (Ret 1, emit (Log ERROR (LDied "gunicorn")) st_terminating).
Proof.
  destruct (loop_exit_status env_dead st_terminating) as [Hany Hgone].
  split.
  - apply (Hany 1%nat 1 (emit (Log ERROR (LDied "gunicorn")) st_terminating)).
    reflexivity.
  - apply (Hgone 0%nat). left. split; reflexivity.
Defined.

(** An unexpected death, [terminating] clear: pid 100 is in the pidfile
    but no such process runs; the status is the same 1. *)
Example loop_unexpected_death :
  loop {| pidfile_pid := fun _ _ => Some 100; running := running env_dead;
          child_pids := child_pids env_dead; shlex_split := shlex_split env_dead;
          popen := popen env_dead; exits_at := exits_at env_dead |}
       1 (state0 herder0)
  = Some (Ret 1, emit (Log ERROR (LDied "gunicorn")) (state0 herder0)).
Proof. vm_compute. reflexivity. Qed.

(** With [terminating] clear and a pidfile that stays unreadable, the
    retry loop sleeps a second at a time and raises [HerderError] after
    the sleep that brings the elapsed time to [pidfile_timeout]. *)
Lemma read_pidfile_loop_gives_up (env : Env) (start : Z) :
  forall (fuel : nat) (st : State),
    alarm st = None ->
    terminating (self st) = false ->
    (forall t, now st <= t -> pidfile_pid env (pidfile (self st)) t = None) ->
    (Z.to_nat (start + pidfile_timeout (self st) - now st) < fuel)%nat ->
    exists st',
      _read_pidfile_loop env fuel start st
      = Some (Raise (HerderError (FailedToReadPidfile (pidfile (self st))
                                    (pidfile_timeout (self st)))), st')
      /\ now st' = Z.max (now st + 1) (start + pidfile_timeout (self st)).
Proof.
  induction fuel as [|fuel IH]; intros st Hal Hterm Hnone Hfuel; [lia|].
  simpl. unfold_m. simpl.
  rewrite (Hnone (now st)) by lia. rewrite Hterm.
  destruct (decide (1 < 0)) as [?|_]; [lia|].
  unfold block. simpl. rewrite Hal. simpl.
  destruct (decide (time.elapsed_exceeds (now st + 1) start (pidfile_timeout (self st))))
    as [Hgt|Hle]; unfold time.elapsed_exceeds in *.
  - eexists. split; [reflexivity|]. simpl. lia.
  - match goal with
    | |- context [_read_pidfile_loop env fuel start ?s] =>
        destruct (IH s) as (st' & Hrun & Hnow)
    end; simpl; auto.
    + intros t Ht. apply Hnone. lia.
    + lia.
    + simpl in Hrun, Hnow. rewrite Hrun. eexists. split; [reflexivity|]. lia.
Qed.

(** So an unreadable pidfile, [terminating] clear, ends the loop by a
    raise and not by a status. *)
Lemma loop_raises_on_pidfile_timeout (env : Env) (fuel : nat) (st : State) :
  alarm st = None ->
  terminating (self st) = false ->
  (forall t, now st <= t -> pidfile_pid env (pidfile (self st)) t = None) ->
  (Z.to_nat (pidfile_timeout (self st)) < fuel)%nat ->
  exists st',
    loop env fuel st
    = Some (Raise (HerderError (FailedToReadPidfile (pidfile (self st))
                                  (pidfile_timeout (self st)))), st')
    /\ now st' = Z.max (now st + 1) (now st + pidfile_timeout (self st)).
Proof.
  intros Hal Hterm Hnone Hfuel.
  destruct (read_pidfile_loop_gives_up env (now st) fuel st Hal Hterm Hnone)
    as (st' & Hrun & Hnow).
  { replace (now st + pidfile_timeout (self st) - now st)
      with (pidfile_timeout (self st)) by lia. exact Hfuel. }
  exists st'. split; [|exact Hnow].
  destruct fuel as [|n]; [lia|].
  unfold loop. cbn [loop_iter]. unfold _loop_inner, _read_pidfile.
  cbv beta iota delta [bind get time.time]. rewrite Hrun. reflexivity.
Qed.

Example loop_pidfile_timeout :
  option_map (fun r => (fst r, now (snd r))) (loop env_dead 181 (state0 herder0))
  = Some (Raise (HerderError (FailedToReadPidfile "gunicorn.pid" 180)), 180).
Proof. vm_compute. reflexivity. Qed.

(** *** Spawning *)

Lemma spawn_cmd_pure (st : State) out st' :
  spawn_cmd st = Some (out, st') -> st' = st.
Proof.
  unfold spawn_cmd. unfold_m.
  destruct (COMMANDS !! unicorn (self st)).
  - destruct (format _ _); intros H; inversion H; reflexivity.
  - destruct (truthy (unicorn_bin (self st))).
    + destruct (COMMANDS !! "unicorn_bin"); [destruct (format _ _)|];
        intros H; inversion H; reflexivity.
    + destruct (truthy (gunicorn_bin (self st))).
      * destruct (COMMANDS !! "gunicorn_bin"); [destruct (format _ _)|];
          intros H; inversion H; reflexivity.
      * intros H; inversion H; reflexivity.
Qed.

(** C2, as stated, fails: the launched process of [env_stuck] never exits,
    [spawn] gives up after [boot_timeout] and returns [False], and pid 4242
    is still in the registry. *)
Lemma spawn_boot_timeout_keeps_pid :
  ~ registry_cleared_after_boot_timeout env_stuck (state0 herder0) 4242.
Proof.
  intros H.
  apply (H st_boot_failed).
  - vm_compute. reflexivity.
  - simpl. auto.
  - vm_compute. reflexivity.
Qed.

(** C2, amended. When [spawn] launches pid [p] and the process does not
    exit within [boot_timeout], [spawn] returns [False] at the deadline
    having sent exactly one signal, SIGTERM to [p], if [p] was still
    running when polled, and none otherwise; no handler is installed, and
    the registry still contains [p], which stays there for the exit hook. *)
Theorem spawn_boot_timeout (env : Env) (st : State) (cmd : string) (p : Z) :
  let bt := boot_timeout (self st) in
  let t := Z.max (now st) (now st + bt) in
  spawn_cmd st = Some (Ret (Some cmd), st) ->
  popen env (shlex_split env cmd) (now st) = Ret p ->
  (forall te, exits_at env p = Some te -> bt <= Z.max 0 (te - now st)) ->
  exists st',
    spawn env st = Some (Ret false, st')
    /\ MANAGED_PIDS st' = {[ p ]} ∪ MANAGED_PIDS st
    /\ p ∈ MANAGED_PIDS st'
    /\ handlers st' = handlers st
    /\ now st' = t
    /\ signals_sent (trace st')
       = (signals_sent (trace st)
          ++ if running_at env p t then [(t, p, SIGTERM)] else [])%list.
Proof.
  intros bt t Hcmd Hpopen Hexit. subst bt t.
  unfold spawn, Popen, wait, poll, terminate, timeout, MANAGED_PIDS_add.
  cbv beta iota delta [bind ret raise lift get getself modify setself log try_except
                       time.time].
  rewrite Hcmd. simpl. rewrite Hpopen. simpl.
  unfold running_at, block. simpl.
  destruct (exits_at env p) as [te|] eqn:Hte; simpl.
  - specialize (Hexit te eq_refl).
    destruct (decide (now st + Z.max 0 (te - now st) < now st + boot_timeout (self st)));
      [lia|]. simpl. try rewrite Hte.
    destruct (decide (te <= Z.max (now st) (now st + boot_timeout (self st))));
      simpl.
    + eexists. split; [reflexivity|]. simpl.
      split; [reflexivity|]. split; [apply elem_of_union_l, elem_of_singleton; reflexivity|].
      split; [reflexivity|]. split; [reflexivity|].
      rewrite bool_decide_eq_true_2 by assumption. simpl.
      unfold signals_sent. rewrite !omap_app. simpl. now rewrite !app_nil_r.
    + eexists. split; [reflexivity|]. simpl.
      split; [reflexivity|]. split; [apply elem_of_union_l, elem_of_singleton; reflexivity|].
      split; [reflexivity|]. split; [reflexivity|].
      rewrite bool_decide_eq_false_2 by assumption. simpl.
      unfold signals_sent. rewrite !omap_app. simpl. now rewrite !app_nil_r.
  - try rewrite Hte.
    eexists. split; [reflexivity|]. simpl.
    split; [reflexivity|]. split; [apply elem_of_union_l, elem_of_singleton; reflexivity|].
    split; [reflexivity|]. split; [reflexivity|].
    unfold signals_sent. rewrite !omap_app. simpl. now rewrite !app_nil_r.
Qed.

Lemma spawn_boot_timeout_witness :
  exists st',
    spawn env_stuck (state0 herder0) = Some (Ret false, st')
    /\ MANAGED_PIDS st' = {[ 4242 ]} ∪ ∅
    /\ 4242 ∈ MANAGED_PIDS st'
    /\ handlers st' = []
    /\ now st' = 180
    /\ signals_sent (trace st') = [(180, 4242, SIGTERM)].
Proof.
  apply (spawn_boot_timeout env_stuck (state0 herder0)
           ("gunicorn -D -p " ++ dq ++ "gunicorn.pid" ++ dq ++ " ") 4242).
  - vm_compute. reflexivity.
  - reflexivity.
  - intros te Hte. discriminate Hte.
Defined.

(** What the retained pid is for: the exit hook kills it. *)
Example spawn_boot_timeout_then_slaughter :
  match spawn env_stuck (state0 herder0) with
  | Some (Ret false, st') =>
      option_map (fun r => signals_sent (trace (snd r))) (_emergency_slaughter env_stuck st')
  | _ => None
  end = Some [(180, 4242, SIGTERM); (180, 4242, SIGKILL)].
Proof. vm_compute. reflexivity. Qed.

(** A process that daemonizes in time: [spawn] returns [True], the pid has
    left the registry and the eight handlers are installed. *)
Example spawn_daemonized :
  match spawn env_live (state0 herder0) with
  | Some (Ret true, st') =>
      Some (now st', bool_decide (4242 ∈ MANAGED_PIDS st'), length (handlers st'))
  | _ => None
  end = Some (3, false, 8%nat).
Proof. vm_compute. reflexivity. Qed.

(** *** A whole reload *)

(** USR2 to the old master on HUP; after the new master has its four
    workers and the overlap has passed, WINCH then QUIT to the old master;
    the INT goes to the new master, once, and sets [terminating]. *)
Example reload_scenario_signals :
  match reload_scenario (state0 herder0) with
  | Some (Ret sigs, st') =>
      Some (sigs, master (self st'), reloading (self st'), terminating (self st'),
            elements (MANAGED_PIDS st'))
  | _ => None
  end
  = Some ([(3, 100, SIGUSR2); (194, 100, SIGWINCH); (195, 100, SIGQUIT);
           (195, 200, SIGINT)],
          Some {| psutil.pid := 200 |}, false, true, [200]).
Proof. vm_compute. reflexivity. Qed.

(** ** Further properties of the module *)

Lemma signals_sent_snoc_log (tr : list event) lv m :
  signals_sent (tr ++ [Log lv m]) = signals_sent tr.
Proof. unfold signals_sent. rewrite omap_app. simpl. apply app_nil_r. Qed.

Lemma signals_sent_snoc_sent (tr : list event) t p sig :
  signals_sent (tr ++ [Sent t p sig]) = (signals_sent tr ++ [(t, p, sig)])%list.
Proof. unfold signals_sent. rewrite omap_app. reflexivity. Qed.

(** *** spawn *)

(** X1. When the launched process exits before [boot_timeout] has passed,
    [spawn] returns [True] at the time of that exit: the pid has left the
    registry, the deadline is cancelled, no signal was sent, and the HUP
    handler and the seven forwarders (and no handler for WINCH) have been
    installed on top of the handlers there were. *)
Theorem spawn_daemonized_ok (env : Env) (st : State) (cmd : string) (p te : Z) :
  spawn_cmd st = Some (Ret (Some cmd), st) ->
  popen env (shlex_split env cmd) (now st) = Ret p ->
  exits_at env p = Some te ->
  Z.max 0 (te - now st) < boot_timeout (self st) ->
  exists st',
    spawn env st = Some (Ret true, st')
    /\ now st' = Z.max (now st) te
    /\ MANAGED_PIDS st' = MANAGED_PIDS st ∖ {[ p ]}
    /\ self st' = self st
    /\ alarm st' = None
    /\ handlers st' = (spawn_handlers ++ handlers st)%list
    /\ signals_sent (trace st') = signals_sent (trace st).
Proof.
  intros Hcmd Hpopen Hte Hin.
  unfold spawn, Popen, wait, poll, terminate, timeout, MANAGED_PIDS_add,
    MANAGED_PIDS_remove, signal_signal.
  cbv beta iota delta [bind ret raise lift get getself modify setself log try_except
                       time.time].
  rewrite Hcmd. simpl. rewrite Hpopen. simpl. rewrite Hte.
  unfold block. simpl.
  destruct (decide (now st + Z.max 0 (te - now st) < now st + boot_timeout (self st)));
    [|lia]. simpl.
  destruct (decide (p ∈ {[p]} ∪ MANAGED_PIDS st)) as [_|Hn];
    [|exfalso; apply Hn, elem_of_union_l, elem_of_singleton; reflexivity].
  simpl. unfold_m. simpl.
  eexists. split; [reflexivity|]. simpl.
  split; [lia|]. split.
  { apply set_eq. intros x. rewrite !elem_of_difference, elem_of_union, elem_of_singleton.
    tauto. }
  split; [reflexivity|]. split; [reflexivity|]. split; [reflexivity|].
  apply signals_sent_snoc_log.
Qed.

Lemma spawn_daemonized_ok_witness :
  exists st',
    spawn env_live (state0 herder0) = Some (Ret true, st')
    /\ now st' = Z.max 0 3
    /\ MANAGED_PIDS st' = ∅ ∖ {[ 4242 ]}
    /\ self st' = herder0
    /\ alarm st' = None
    /\ handlers st' = (spawn_handlers ++ [])%list
    /\ signals_sent (trace st') = [].
Proof.
  apply (spawn_daemonized_ok env_live (state0 herder0)
           ("gunicorn -D -p " ++ dq ++ "gunicorn.pid" ++ dq ++ " ") 4242 3).
  - vm_compute. reflexivity.
  - reflexivity.
  - reflexivity.
  - simpl. lia.
Defined.

(** X2. When launching fails with [OSError], nothing has been registered
    or sent: for errno 2 (no such executable) [spawn] logs the missing
    program and returns [False]; for any other errno the [OSError] is
    raised again to the caller. *)
Theorem spawn_launch_error (env : Env) (st : State) (cmd cmd0 : string)
    (errno : Z) :
  spawn_cmd st = Some (Ret (Some cmd), st) ->
  popen env (shlex_split env cmd) (now st) = Raise (OSError errno) ->
  head (shlex_split env cmd) = Some cmd0 ->
  exists st',
    spawn env st
    = Some (if decide (errno = 2) then Ret false else Raise (OSError errno), st')
    /\ frame st st'
    /\ now st' = now st
    /\ signals_sent (trace st') = signals_sent (trace st)
    /\ (errno = 2 -> last (trace st') = Some (Log ERROR (LNotFound cmd0))).
Proof.
  intros Hcmd Hpopen Hhd.
  unfold spawn, Popen.
  cbv beta iota delta [bind ret raise lift get getself modify setself log try_except
                       time.time].
  rewrite Hcmd. simpl. rewrite Hpopen. simpl. rewrite Hhd.
  destruct (decide (errno = 2)) as [He|He]; simpl.
  - eexists. split; [reflexivity|]. simpl.
    split; [now repeat split|]. split; [reflexivity|]. split.
    + now rewrite !signals_sent_snoc_log.
    + intros _. apply last_snoc.
  - eexists. split; [reflexivity|]. simpl.
    split; [now repeat split|]. split; [reflexivity|]. split.
    + now rewrite !signals_sent_snoc_log.
    + intros; contradiction.
Qed.

Lemma spawn_launch_error_witness :
  let env := {| pidfile_pid := pidfile_pid env_dead; running := running env_dead;
                child_pids := child_pids env_dead;
                shlex_split := shlex_split env_dead;
                popen := fun _ _ => Raise (OSError 13);
                exits_at := exits_at env_dead |} in
  exists st',
    spawn env (state0 herder0) = Some (Raise (OSError 13), st')
    /\ frame (state0 herder0) st'
    /\ now st' = 0
    /\ signals_sent (trace st') = []
    /\ (13 = 2 -> last (trace st')
                  = Some (Log ERROR (LNotFound
                       ("gunicorn -D -p " ++ dq ++ "gunicorn.pid" ++ dq ++ " ")))).
Proof.
  intros env.
  apply (spawn_launch_error env (state0 herder0)
           ("gunicorn -D -p " ++ dq ++ "gunicorn.pid" ++ dq ++ " ")
           ("gunicorn -D -p " ++ dq ++ "gunicorn.pid" ++ dq ++ " ") 13).
  - vm_compute. reflexivity.
  - reflexivity.
  - reflexivity.
Defined.

(** X3. The flavor names [unicorn_bin] and [gunicorn_bin] are keys of
    [COMMANDS], so a Herder of that flavor with no binary given is
    constructed without error; its [spawn] then raises [KeyError] for the
    template field that has no value, before anything is launched, logged
    or registered. *)
Theorem spawn_template_flavor_without_binary (env : Env) (flavor : string)
    (pidfile_ : option string) (bt pt ov mw : Z) (args_ : string) :
  flavor = "unicorn_bin" \/ flavor = "gunicorn_bin" ->
  exists h,
    __init__ flavor None None pidfile_ bt pt ov mw args_ = Ret h
    /\ forall st, self st = h ->
         spawn env st = Some (Raise (KeyError flavor), st).
Proof.
  intros [->| ->].
  - eexists. split; [reflexivity|]. intros st Hs.
    unfold spawn, spawn_cmd.
    cbv beta iota delta [bind ret raise lift get]. rewrite Hs. reflexivity.
  - eexists. split; [reflexivity|]. intros st Hs.
    unfold spawn, spawn_cmd.
    cbv beta iota delta [bind ret raise lift get]. rewrite Hs. reflexivity.
Qed.

Lemma spawn_template_flavor_without_binary_witness :
  exists h,
    __init__ "unicorn_bin" None None None 180 180 180 180 EmptyString = Ret h
    /\ forall st, self st = h ->
         spawn env_live st = Some (Raise (KeyError "unicorn_bin"), st).
Proof.
  apply (spawn_template_flavor_without_binary env_live "unicorn_bin" None
           180 180 180 180 EmptyString).
  left. reflexivity.
Defined.

Lemma truthy_Some (s : string) : s <> EmptyString -> truthy (Some s) = true.
Proof.
  intros H. unfold truthy. rewrite bool_decide_eq_false_2 by exact H. reflexivity.
Qed.

Lemma append_nil_r (s : string) : (s ++ EmptyString)%string = s.
Proof.
  induction s as [|c s IH]; [reflexivity|].
  change (String c (s ++ EmptyString)%string = String c s). now rewrite IH.
Qed.

(** X4. A custom binary overrides the flavor.  With a non-empty
    [unicorn_bin] that is not itself a flavor name, construction succeeds
    whatever the flavor argument and whatever [gunicorn_bin] is, the
    default pidfile is [<unicorn_bin>.pid], and the command line of [spawn]
    is [<unicorn_bin> -D -P "<pidfile>" <args>].  With no [unicorn_bin] and
    such a [gunicorn_bin], the same holds with [-p] for [-P]. *)
Theorem spawn_cmd_custom_binary (flavor bin : string)
    (other pidfile_ : option string) (bt pt ov mw : Z) (args_ : string) :
  bin <> EmptyString ->
  COMMANDS !! bin = None ->
  (exists h,
     __init__ flavor (Some bin) other pidfile_ bt pt ov mw args_ = Ret h
     /\ unicorn h = bin
     /\ pidfile h = default (bin ++ ".pid") pidfile_
     /\ forall st, self st = h ->
          spawn_cmd st
          = Some (Ret (Some (bin ++ " -D -P " ++ dq ++ pidfile h ++ dq ++ " " ++ args_)),
                  st))
  /\ (truthy other = false ->
      exists h,
        __init__ flavor other (Some bin) pidfile_ bt pt ov mw args_ = Ret h
        /\ unicorn h = bin
        /\ pidfile h = default (bin ++ ".pid") pidfile_
        /\ forall st, self st = h ->
             spawn_cmd st
             = Some (Ret (Some (bin ++ " -D -p " ++ dq ++ pidfile h ++ dq ++ " " ++ args_)),
                     st)).
Proof.
  intros Hne Hnk. pose proof (truthy_Some bin Hne) as Ht.
  assert (Ht' : negb (bool_decide (bin = EmptyString)) = true) by exact Ht.
  split.
  - unfold __init__. rewrite Ht. simpl.
    eexists. split; [reflexivity|]. simpl.
    split; [reflexivity|]. split; [destruct pidfile_; reflexivity|].
    intros st Hs. unfold spawn_cmd.
    cbv beta iota delta [bind ret raise lift get]. rewrite Hs. simpl.
    rewrite Hnk, Ht'. vm_compute. rewrite append_nil_r. reflexivity.
  - intros Ho. unfold __init__. rewrite Ho, Ht. simpl.
    eexists. split; [reflexivity|]. simpl.
    split; [reflexivity|]. split; [destruct pidfile_; reflexivity|].
    intros st Hs. unfold spawn_cmd.
    cbv beta iota delta [bind ret raise lift get]. rewrite Hs. simpl.
    rewrite Hnk, Ho, Ht'. vm_compute. rewrite append_nil_r. reflexivity.
Qed.

Lemma spawn_cmd_custom_binary_witness :
  (exists h,
     __init__ "puma" (Some "/opt/bin/unicorn") None None
       180 180 180 180 "-c app.rb" = Ret h
     /\ unicorn h = "/opt/bin/unicorn"
     /\ pidfile h = "/opt/bin/unicorn.pid"
     /\ forall st, self st = h ->
          spawn_cmd st
          = Some (Ret (Some ("/opt/bin/unicorn" ++ " -D -P " ++ dq ++ pidfile h
                             ++ dq ++ " " ++ "-c app.rb")), st))
  /\ (exists h,
        __init__ "puma" None (Some "/opt/bin/unicorn") None
          180 180 180 180 "-c app.rb" = Ret h
        /\ unicorn h = "/opt/bin/unicorn"
        /\ pidfile h = "/opt/bin/unicorn.pid"
        /\ forall st, self st = h ->
             spawn_cmd st
             = Some (Ret (Some ("/opt/bin/unicorn" ++ " -D -p " ++ dq ++ pidfile h
                                ++ dq ++ " " ++ "-c app.rb")), st)).
Proof.
  destruct (spawn_cmd_custom_binary "puma" "/opt/bin/unicorn" None None
              180 180 180 180 "-c app.rb"
              ltac:(discriminate) ltac:(vm_compute; reflexivity)) as [H1 H2].
  split; [exact H1|exact (H2 eq_refl)].
Defined.

(** *** The monitor loop, iteration by iteration *)

Lemma read_pidfile_inv (env : Env) (fuel : nat) (st : State) out st' :
  _read_pidfile env fuel st = Some (out, st') ->
  frame st st' /\ signals_sent (trace st') = signals_sent (trace st).
Proof.
  unfold _read_pidfile. cbv beta iota delta [bind get time.time].
  apply read_pidfile_loop_inv.
Qed.

(** X5. The first iteration that reads a pid naming a running process,
    with no master tracked yet, returns [True]: that process becomes the
    tracked master, its pid is added to the registry, the boot is logged,
    and nothing else changes; no signal is sent. *)
Theorem loop_inner_first_boot (env : Env) (fuel : nat) (st st1 : State) (p : Z) :
  master (self st) = None ->
  _read_pidfile env fuel st = Some (Ret (Some p), st1) ->
  alive env (now st1) p = true ->
  exists st',
    _loop_inner env fuel st = Some (Ret true, st')
    /\ self st' = set_master (Some {| psutil.pid := p |}) (self st)
    /\ MANAGED_PIDS st' = {[ p ]} ∪ MANAGED_PIDS st
    /\ trace st' = (trace st1 ++ [Log INFO (LBooted (unicorn (self st)) p)])%list
    /\ signals_sent (trace st') = signals_sent (trace st)
    /\ now st' = now st1.
Proof.
  intros Hm Hread Halive.
  destruct (read_pidfile_inv env fuel st _ _ Hread) as ((Hself & Hpids & _) & Hsig).
  unfold _loop_inner, MANAGED_PIDS_add.
  cbv beta iota delta [bind ret raise get getself modify setself log try_except time.time].
  rewrite Hread, Hm.
  cbv beta iota delta [bind ret raise get getself modify setself log try_except time.time].
  rewrite (psutil_Process_alive env p st1 Halive). simpl.
  eexists. split; [reflexivity|]. simpl.
  rewrite Hself, Hpids, signals_sent_snoc_log. auto.
Qed.

Lemma loop_inner_first_boot_witness :
  exists st',
    _loop_inner env_live 1 (state0 herder0) = Some (Ret true, st')
    /\ self st' = set_master (Some {| psutil.pid := 100 |}) herder0
    /\ MANAGED_PIDS st' = {[ 100 ]} ∪ ∅
    /\ trace st' = [Log INFO (LBooted "gunicorn" 100)]
    /\ signals_sent (trace st') = []
    /\ now st' = 0.
Proof.
  apply (loop_inner_first_boot env_live 1 (state0 herder0) (state0 herder0) 100);
    reflexivity.
Defined.

Lemma set_master_same (h : Herder) (m : psutil.Process) :
  master h = Some m -> set_master (Some {| psutil.pid := psutil.pid m |}) h = h.
Proof. destruct h, m. simpl. intros ->. reflexivity. Qed.

Lemma set_self_same (st : State) : set_self (self st) st = st.
Proof. now destruct st. Qed.

Lemma loop_inner_same_pid (env : Env) (fuel : nat) (st st1 : State)
    (m : psutil.Process) :
  master (self st) = Some m ->
  _read_pidfile env fuel st = Some (Ret (Some (psutil.pid m)), st1) ->
  alive env (now st1) (psutil.pid m) = true ->
  _loop_inner env fuel st = Some (Ret true, st1).
Proof.
  intros Hm Hread Halive.
  destruct (read_pidfile_inv env fuel st _ _ Hread) as ((Hself & _ & _) & _).
  unfold _loop_inner.
  cbv beta iota delta [bind ret raise get getself modify setself log try_except time.time].
  rewrite Hread, Hm.
  cbv beta iota delta [bind ret raise get getself modify setself log try_except time.time].
  rewrite (psutil_Process_alive env _ st1 Halive). simpl.
  destruct (decide (psutil.pid m <> psutil.pid m)) as [Hne|_]; [contradiction|].
  rewrite Hself, (set_master_same _ _ Hm), <- Hself, set_self_same. reflexivity.
Qed.

(** X6. An iteration that reads the pid of the master already tracked,
    still running, returns [True] in the state reading the pidfile left:
    the Herder, with [reloading] still set if it was, the registry and the
    handlers are as before the iteration, and no signal was sent. *)
Theorem loop_inner_steady (env : Env) (fuel : nat) (st st1 : State)
    (m : psutil.Process) :
  master (self st) = Some m ->
  _read_pidfile env fuel st = Some (Ret (Some (psutil.pid m)), st1) ->
  alive env (now st1) (psutil.pid m) = true ->
  _loop_inner env fuel st = Some (Ret true, st1)
  /\ frame st st1
  /\ signals_sent (trace st1) = signals_sent (trace st).
Proof.
  intros Hm Hread Halive. split.
  - exact (loop_inner_same_pid env fuel st st1 m Hm Hread Halive).
  - exact (read_pidfile_inv env fuel st _ _ Hread).
Qed.

Lemma loop_inner_steady_witness :
  _loop_inner env_live 1 (set_now 4 st_reload) = Some (Ret true, set_now 4 st_reload)
  /\ frame (set_now 4 st_reload) (set_now 4 st_reload)
  /\ signals_sent (trace (set_now 4 st_reload)) = signals_sent (trace (set_now 4 st_reload)).
Proof.
  apply (loop_inner_steady env_live 1 (set_now 4 st_reload) (set_now 4 st_reload)
           {| psutil.pid := 100 |}); reflexivity.
Defined.

(** X7. An iteration whose pidfile read returns no pid (the [terminating]
    case), or a non-negative pid naming no running process, returns
    [False] and changes nothing beyond what reading the pidfile did: the
    tracked master is not replaced and its pid stays in the registry.  A
    negative number in the pidfile is not such a case: [psutil.Process]
    raises [ValueError], which the [except] clause does not catch, and the
    iteration raises it, again with nothing changed. *)
Theorem loop_inner_master_lost (env : Env) (fuel : nat) (st st1 : State)
    (r : option Z) :
  _read_pidfile env fuel st = Some (Ret r, st1) ->
  ((forall p, r = Some p -> 0 <= p /\ alive env (now st1) p = false) ->
   _loop_inner env fuel st = Some (Ret false, st1))
  /\ (forall p, r = Some p -> p < 0 ->
      _loop_inner env fuel st = Some (Raise ValueError, st1)).
Proof.
  intros Hread. split.
  - intros Hdead.
    unfold _loop_inner, psutil_Process.
    cbv beta iota delta [bind ret raise get getself modify setself log try_except time.time].
    rewrite Hread. destruct r as [p|]; [|reflexivity].
    destruct (Hdead p eq_refl) as [Hpos Hd].
    destruct (decide (p < 0)); [lia|].
    cbv beta iota delta [bind ret raise get time.time].
    rewrite Hd. reflexivity.
  - intros p -> Hneg.
    unfold _loop_inner, psutil_Process.
    cbv beta iota delta [bind ret raise get getself modify setself log try_except time.time].
    rewrite Hread. destruct (decide (p < 0)); [|lia]. reflexivity.
Qed.

Lemma loop_inner_master_lost_witness :
  _loop_inner env_dies 1 (set_now 6 st_tracking)
  = Some (Ret false, set_now 6 st_tracking)
  /\ _loop_inner env_corrupt 1 st_tracking = Some (Raise ValueError, st_tracking).
Proof.
  split.
  - apply (proj1 (loop_inner_master_lost env_dies 1 (set_now 6 st_tracking)
                    (set_now 6 st_tracking) (Some 100) eq_refl)).
    intros p Hp. injection Hp as <-. split; [lia|reflexivity].
  - apply (proj2 (loop_inner_master_lost env_corrupt 1 st_tracking st_tracking
                    (Some (-1)) eq_refl) (-1)); [reflexivity|lia].
Defined.

(** *** What the handover leaves alone *)

Lemma send_signal_frame (env : Env) (proc : psutil.Process) (sig : Signals)
    (st : State) out st' :
  send_signal env proc sig st = Some (out, st') -> frame st st'.
Proof.
  unfold send_signal. unfold_m.
  destruct (alive env (now st) (psutil.pid proc)); intros H; inversion H; subst;
    now repeat split.
Qed.

Lemma kill_old_master_frame (env : Env) (process : psutil.Process)
    (st : State) out st' :
  _kill_old_master env process st = Some (out, st') -> frame st st'.
Proof.
  unfold _kill_old_master.
  cbv beta iota delta [bind log modify].
  destruct (send_signal env process SIGWINCH _) as [[[[]|e] st1]|] eqn:H1;
    [| |discriminate].
  2:{ intros H; inversion H; subst. apply send_signal_frame in H1.
      destruct H1 as (?&?&?). simpl in *. now repeat split. }
  apply send_signal_frame in H1.
  destruct (time.sleep 1 st1) as [[[[]|e] st2]|] eqn:H2; [| |discriminate].
  2:{ intros H; inversion H; subst. apply sleep_inv in H2.
      destruct H1 as (?&?&?), H2 as ((?&?&?)&_). simpl in *.
      repeat split; congruence. }
  apply sleep_inv in H2. intros H3. apply send_signal_frame in H3.
  destruct H1 as (?&?&?), H2 as ((?&?&?)&_), H3 as (?&?&?). simpl in *.
  repeat split; congruence.
Qed.

Lemma wait_for_workers_inv (env : Env) (fuel : nat) (ov T : Z)
    (new old : psutil.Process) (st : State) (out : outcome unit) (st' : State) :
  _wait_for_workers env fuel ov T new old st = Some (out, st') ->
  frame st st' /\ signals_sent (trace st') = signals_sent (trace st).
Proof.
  unfold _wait_for_workers, children, timeout.
  cbv beta iota delta [bind ret raise get modify log try_except time.time].
  destruct (alive env (now st) (psutil.pid old)).
  2:{ intros H; inversion H; subst. split; [apply frame_refl|reflexivity]. }
  set (exp := Z.max _ 1).
  destruct (_wait_for_workers_poll env fuel new exp _) as [[[[]|e] st1]|] eqn:Hp;
    [| |discriminate]; apply poll_inv in Hp; destruct Hp as [(H1&H2&H3) Ht];
    simpl in H1, H2, H3, Ht.
  - destruct (time.sleep ov _) as [[[[]|e] st2]|] eqn:Hs; [| |discriminate];
      apply sleep_inv in Hs; destruct Hs as [(H4&H5&H6) Ht2];
      simpl in H4, H5, H6, Ht2.
    + intros H; inversion H; subst. split.
      * repeat split; congruence.
      * rewrite Ht2, signals_sent_snoc_log. now rewrite Ht.
    + destruct e; intros H; inversion H; subst; simpl; split;
        try (repeat split; simpl; congruence);
        rewrite ?signals_sent_snoc_log, Ht2, signals_sent_snoc_log; now rewrite Ht.
  - destruct e; intros H; inversion H; subst; simpl; split;
      try (repeat split; simpl; congruence);
      rewrite ?signals_sent_snoc_log; now rewrite Ht.
Qed.


Lemma block_now (d : option Z) (st : State) out st' :
  (forall x, d = Some x -> 0 <= x) ->
  block d st = Some (out, st') -> now st <= now st'.
Proof.
  unfold block. intros Hd H.
  destruct (alarm st), d as [x|]; try destruct (decide _); inversion H; subst;
    simpl; try specialize (Hd x eq_refl); lia.
Qed.

Lemma sleep_now (secs : Z) (st : State) out st' :
  time.sleep secs st = Some (out, st') -> now st <= now st'.
Proof.
  unfold time.sleep. destruct (decide (secs < 0)).
  - unfold raise. intros H; inversion H; subst. lia.
  - apply block_now. intros x Hx. inversion Hx; subst. lia.
Qed.

Lemma poll_now (env : Env) (new : psutil.Process) (exp : Z) :
  forall (fuel : nat) (st : State) out st',
    _wait_for_workers_poll env fuel new exp st = Some (out, st') ->
    now st <= now st'.
Proof.
  induction fuel as [|fuel IH]; intros st out st' H; [discriminate|].
  simpl in H. unfold children in H.
  cbv beta iota delta [bind ret raise get time.time] in H.
  destruct (alive env (now st) (psutil.pid new)).
  - destruct (decide _).
    + destruct (time.sleep 1 st) as [[[[]|e] st1]|] eqn:Hs; [| |discriminate].
      * apply sleep_now in Hs. apply IH in H. lia.
      * inversion H; subst. eapply sleep_now; eauto.
    + inversion H; subst. lia.
  - inversion H; subst. lia.
Qed.

(** X8. Whatever [_wait_for_workers] does (return, time out, or raise
    because a process is gone), it sends no signal, leaves the Herder
    object, the registry and the installed handlers as they were, and
    never sets the clock back. *)
Theorem wait_for_workers_frame (env : Env) (fuel : nat) (ov T : Z)
    (new old : psutil.Process) (st : State) (out : outcome unit) (st' : State) :
  _wait_for_workers env fuel ov T new old st = Some (out, st') ->
  frame st st'
  /\ signals_sent (trace st') = signals_sent (trace st)
  /\ now st <= now st'.
Proof.
  intros H. destruct (wait_for_workers_inv _ _ _ _ _ _ _ _ _ H) as [Hf Hs].
  split; [exact Hf|]. split; [exact Hs|].
  revert H. unfold _wait_for_workers, children, timeout.
  cbv beta iota delta [bind ret raise get modify log try_except time.time].
  destruct (alive env (now st) (psutil.pid old)).
  2:{ intros H; inversion H; subst. lia. }
  set (exp := Z.max _ 1).
  destruct (_wait_for_workers_poll env fuel new exp _) as [[[[]|e] st1]|] eqn:Hp;
    [| |discriminate]; apply poll_now in Hp; simpl in Hp.
  - destruct (time.sleep ov _) as [[[[]|e] st2]|] eqn:Hsl; [| |discriminate];
      apply sleep_now in Hsl; simpl in Hsl.
    + intros H; inversion H; subst. lia.
    + destruct e; intros H; inversion H; subst; simpl; lia.
  - destruct e; intros H; inversion H; subst; simpl; lia.
Qed.

Lemma wait_for_workers_frame_witness :
  frame (state0 herder0)
        {| now := 3; alarm := None; MANAGED_PIDS := ∅; self := herder0;
           handlers := []; trace := [Log WARN (LNotReached 4 3 300)] |}
  /\ signals_sent [Log WARN (LNotReached 4 3 300)] = signals_sent []
  /\ 0 <= 3.
Proof.
  apply (wait_for_workers_frame env_live 4 5 3 {| psutil.pid := 300 |}
           {| psutil.pid := 100 |} (state0 herder0) (Ret tt)).
  vm_compute. reflexivity.
Defined.

(** X9. The monitor loop keeps the tracked master in the registry: if the
    tracked master's pid is in [MANAGED_PIDS] before an iteration, it is
    after it as well, whether the iteration returns or raises (during the
    handover, on the pidfile timeout, or in [set.remove]). *)
Theorem loop_inner_keeps_master_registered (env : Env) (fuel : nat)
    (st : State) (out : outcome bool) (st' : State) :
  master_registered st ->
  _loop_inner env fuel st = Some (out, st') ->
  master_registered st'.
Proof.
  intros Hinv. unfold _loop_inner, psutil_Process.
  cbv beta iota delta [bind ret raise get getself modify setself log try_except time.time].
  destruct (_read_pidfile env fuel st) as [[[[p|]|e] st1]|] eqn:Hread;
    [| | |discriminate];
    destruct (read_pidfile_inv env fuel st _ _ Hread) as ((Hself & Hpids & _) & _).
  2,3: intros H; inversion H; subst; intros m Hm; rewrite Hself in Hm;
       rewrite Hpids; apply Hinv, Hm.
  destruct (decide (p < 0)).
  { intros H; inversion H; subst. intros m Hm. rewrite Hself in Hm.
    rewrite Hpids. apply Hinv, Hm. }
  cbv beta iota delta [bind ret raise get time.time].
  destruct (alive env (now st1) p).
  2:{ intros H; inversion H; subst. intros m Hm. rewrite Hself in Hm.
      rewrite Hpids. apply Hinv, Hm. }
  simpl. unfold MANAGED_PIDS_add, MANAGED_PIDS_remove.
  cbv beta iota delta [bind ret raise get getself modify setself log try_except time.time].
  simpl.
  assert (Hnew : forall (s : gset Z) m,
             Some {| psutil.pid := p |} = Some m -> psutil.pid m ∈ {[p]} ∪ s).
  { intros s m Hm. inversion Hm; subst. apply elem_of_union_l, elem_of_singleton.
    reflexivity. }
  destruct (master (self st)) as [old|] eqn:Hold.
  2:{ intros H; inversion H; subst. intros m Hm. simpl in *. apply Hnew, Hm. }
  destruct (decide (p <> psutil.pid old)) as [Hne|Heq].
  2:{ intros H; inversion H; subst. intros m Hm. simpl in *.
      inversion Hm; subst. simpl. rewrite Hpids.
      assert (p = psutil.pid old) as -> by (destruct (decide (p = psutil.pid old)); tauto).
      apply Hinv, Hold. }
  assert (Hrm : forall (s : gset Z) m,
             Some {| psutil.pid := p |} = Some m ->
             psutil.pid m ∈ ({[p]} ∪ s) ∖ {[psutil.pid old]}).
  { intros s m Hm. inversion Hm; subst. simpl. apply registry_handover_in, Hne. }
  simpl. rewrite Hself.
  destruct (reloading (self st)).
  - destruct (_wait_for_workers env fuel _ _ _ _ _) as [[[[]|e] st2]|] eqn:Hw;
      [| |discriminate];
      apply wait_for_workers_inv in Hw; destruct Hw as ((Hs2 & Hp2 & _) & _);
      simpl in Hs2, Hp2.
    2:{ intros H; inversion H; subst. intros m Hm. rewrite Hs2 in Hm. simpl in Hm.
        rewrite Hp2. apply Hnew, Hm. }
    destruct (_kill_old_master env old st2) as [[[[]|e] st3]|] eqn:Hk;
      [| |discriminate];
      apply kill_old_master_frame in Hk; destruct Hk as (Hs3 & Hp3 & _).
    2:{ intros H; inversion H; subst. intros m Hm. rewrite Hs3, Hs2 in Hm.
        simpl in Hm. rewrite Hp3, Hp2. apply Hnew, Hm. }
    simpl. rewrite Hp3, Hp2.
    destruct (decide (psutil.pid old ∈ {[p]} ∪ MANAGED_PIDS st1));
      intros H; inversion H; subst; intros m Hm; simpl in *;
      rewrite Hs3, Hs2 in Hm; simpl in Hm; rewrite Hp3, Hp2.
    + apply Hrm, Hm.
    + apply Hnew, Hm.
  - simpl.
    destruct (decide (psutil.pid old ∈ {[p]} ∪ MANAGED_PIDS st1));
      intros H; inversion H; subst; intros m Hm; simpl in *.
    + apply Hrm, Hm.
    + apply Hnew, Hm.
Qed.

Lemma loop_inner_keeps_master_registered_witness :
  master_registered st_reloaded.
Proof.
  apply (loop_inner_keeps_master_registered env_live 181 st_reload (Ret true)).
  - intros m Hm. injection Hm as <-. vm_compute. reflexivity.
  - vm_compute. reflexivity.
Defined.

(** *** The monitor loop as a whole *)

Lemma read_pidfile_first_try (env : Env) (fuel : nat) (st : State) (p : Z) :
  pidfile_pid env (pidfile (self st)) (now st) = Some p ->
  _read_pidfile env (S fuel) st = Some (Ret (Some p), st).
Proof.
  intros Hp. unfold _read_pidfile. simpl. unfold_m. rewrite Hp. reflexivity.
Qed.

Lemma loop_iter_steady_step (env : Env) (n fuel : nat) (st : State)
    (m : psutil.Process) :
  master (self st) = Some m ->
  alarm st = None ->
  pidfile_pid env (pidfile (self st)) (now st) = Some (psutil.pid m) ->
  alive env (now st) (psutil.pid m) = true ->
  loop_iter env (S n) (S fuel) st
  = loop_iter env n (S fuel) (set_now (now st + 2) st).
Proof.
  intros Hm Hal Hp Ha. cbn [loop_iter]. unfold bind at 1.
  rewrite (loop_inner_same_pid env (S fuel) st st m Hm
             (read_pidfile_first_try env fuel st _ Hp) Ha).
  cbn [negb]. unfold bind, time.sleep, block.
  destruct (decide (2 < 0)) as [?|_]; [lia|]. rewrite Hal. reflexivity.
Qed.

(** X10. The loop polls every two seconds and exits at the first poll that
    finds the master gone.  If at the polls [now], [now+2], ...,
    [now+2(k-1)] the pidfile names the tracked master and it runs, and at
    [now+2k] the pidfile is unreadable with [terminating] set, or holds a
    non-negative pid that does not run, then [loop] returns 1 at time
    [now+2k], having logged the death and nothing else, with the registry
    untouched. *)
Theorem loop_exits_at_first_lost_poll (env : Env) (k fuel : nat) (st : State)
    (m : psutil.Process) :
  let pf := pidfile (self st) in
  let t_end := now st + 2 * Z.of_nat k in
  master (self st) = Some m ->
  alarm st = None ->
  (forall j : nat, (j < k)%nat ->
     pidfile_pid env pf (now st + 2 * Z.of_nat j) = Some (psutil.pid m)
     /\ alive env (now st + 2 * Z.of_nat j) (psutil.pid m) = true) ->
  (terminating (self st) = true /\ pidfile_pid env pf t_end = None)
  \/ (exists q, pidfile_pid env pf t_end = Some q
        /\ 0 <= q /\ alive env t_end q = false) ->
  (k < fuel)%nat ->
  loop env fuel st
  = Some (Ret 1, emit (Log ERROR (LDied (unicorn (self st)))) (set_now t_end st)).
Proof.
  intros pf t_end Hm Hal Hup Hgone Hfuel. subst pf t_end.
  unfold loop. destruct fuel as [|fuel]; [lia|].
  assert (Hgen : forall n, (k <= n)%nat ->
            loop_iter env (S n) (S fuel) st
            = Some (Ret 1, emit (Log ERROR (LDied (unicorn (self st))))
                             (set_now (now st + 2 * Z.of_nat k) st))).
  2:{ apply Hgen. lia. }
  clear Hfuel. revert st Hm Hal Hup Hgone.
  induction k as [|k IH]; intros st Hm Hal Hup Hgone n Hn.
  - cbn [loop_iter]. unfold bind at 1.
    replace (now st + 2 * Z.of_nat 0) with (now st) in * by lia.
    rewrite (loop_inner_master_gone env fuel st Hgone).
    rewrite set_now_same. reflexivity.
  - destruct n as [|n]; [lia|].
    destruct (Hup O ltac:(lia)) as [Hp Ha].
    replace (now st + 2 * Z.of_nat 0) with (now st) in * by lia.
    rewrite (loop_iter_steady_step env (S n) fuel st m Hm Hal Hp Ha).
    rewrite (IH (set_now (now st + 2) st)); simpl; auto; try lia.
    + do 3 f_equal. unfold set_now. simpl. f_equal. lia.
    + intros j Hj. destruct (Hup (S j) ltac:(lia)) as [Hp' Ha'].
      replace (now st + 2 + 2 * Z.of_nat j) with (now st + 2 * Z.of_nat (S j)) by lia.
      auto.
    + replace (now st + 2 + 2 * Z.of_nat k) with (now st + 2 * Z.of_nat (S k)) by lia.
      exact Hgone.
Qed.

Lemma loop_exits_at_first_lost_poll_witness :
  loop env_dies 4 st_tracking
  = Some (Ret 1, emit (Log ERROR (LDied "gunicorn")) (set_now (0 + 2 * Z.of_nat 3) st_tracking)).
Proof.
  apply (loop_exits_at_first_lost_poll env_dies 3 4 st_tracking {| psutil.pid := 100 |}).
  - reflexivity.
  - reflexivity.
  - intros j Hj. assert (Hc : j = 0%nat \/ j = 1%nat \/ j = 2%nat) by lia.
    destruct Hc as [->|[->| ->]]; split; reflexivity.
  - right. exists 100. split; [reflexivity|]. split; [lia|reflexivity].
  - lia.
Defined.

(** X11. While the pidfile keeps naming the tracked master and the master
    keeps running, the loop does not end: no number of iterations makes it
    return or raise. *)
Theorem loop_runs_while_master_lives (env : Env) (n : nat) (st : State)
    (m : psutil.Process) :
  master (self st) = Some m ->
  alarm st = None ->
  (forall t, now st <= t ->
     pidfile_pid env (pidfile (self st)) t = Some (psutil.pid m)
     /\ alive env t (psutil.pid m) = true) ->
  loop env n st = None.
Proof.
  intros Hm Hal Hup. unfold loop.
  destruct n as [|fuel]; [reflexivity|].
  generalize (S fuel) at 1. intros n. revert st Hm Hal Hup.
  induction n as [|n IH]; intros st Hm Hal Hup; [reflexivity|].
  destruct (Hup (now st) ltac:(lia)) as [Hp Ha].
  rewrite (loop_iter_steady_step env n fuel st m Hm Hal Hp Ha).
  apply IH; simpl; auto.
  intros t Ht. apply Hup. lia.
Qed.

Lemma loop_runs_while_master_lives_witness :
  loop env_live 7 {| now := 20; alarm := None; MANAGED_PIDS := {[ 200 ]};
                     self := set_master (Some {| psutil.pid := 200 |}) herder0;
                     handlers := []; trace := [] |} = None.
Proof.
  apply (loop_runs_while_master_lives env_live 7 _ {| psutil.pid := 200 |}).
  - reflexivity.
  - reflexivity.
  - simpl. intros t Ht. split; [|reflexivity].
    destruct (decide (t < 10)); [lia|reflexivity].
Defined.

(** *** Reading the pidfile *)

Lemma read_pidfile_loop_retries (env : Env) (start p : Z) :
  forall (k fuel : nat) (st : State),
    terminating (self st) = false ->
    alarm st = None ->
    (forall j : nat, (j < k)%nat ->
       pidfile_pid env (pidfile (self st)) (now st + Z.of_nat j) = None) ->
    pidfile_pid env (pidfile (self st)) (now st + Z.of_nat k) = Some p ->
    k = 0%nat \/ now st + Z.of_nat k - start < pidfile_timeout (self st) ->
    (k < fuel)%nat ->
    exists st',
      _read_pidfile_loop env fuel start st = Some (Ret (Some p), st')
      /\ now st' = now st + Z.of_nat k
      /\ trace st'
         = (trace st ++ mjoin (replicate k [Log DEBUG LPidfileReadError;
                                           Log DEBUG LRetrying]))%list.
Proof.
  induction k as [|k IH]; intros fuel st Hterm Hal Hnone Hsome Hle Hfuel;
    (destruct fuel as [|fuel]; [lia|]).
  - replace (now st + Z.of_nat 0) with (now st) in * by lia.
    simpl. unfold_m. rewrite Hsome.
    eexists. split; [reflexivity|]. split; [lia|]. symmetry. apply app_nil_r.
  - pose proof (Hnone O ltac:(lia)) as H0.
    replace (now st + Z.of_nat 0) with (now st) in * by lia.
    cbn [_read_pidfile_loop]. unfold_m. rewrite H0, Hterm.
    destruct (decide (1 < 0)) as [?|_]; [lia|].
    unfold block. simpl. rewrite Hal. simpl.
    destruct (decide (time.elapsed_exceeds (now st + 1) start (pidfile_timeout (self st))))
      as [Hex|_]; [unfold time.elapsed_exceeds in Hex; lia|].
    match goal with
    | |- context [_read_pidfile_loop env fuel start ?s] =>
        destruct (IH fuel s) as (st' & Hrun & Hnow & Htr)
    end; simpl; auto; try lia.
    + intros j Hj. replace (now st + 1 + Z.of_nat j) with (now st + Z.of_nat (S j)) by lia.
      apply Hnone. lia.
    + replace (now st + 1 + Z.of_nat k) with (now st + Z.of_nat (S k)) by lia. exact Hsome.
    + simpl in Hrun, Hnow, Htr. rewrite Hrun.
      eexists. split; [reflexivity|]. split; [lia|].
      rewrite Htr. simpl. rewrite <- !app_assoc. reflexivity.
Qed.

(** X12. With [terminating] clear, a pidfile that is readable at once, or
    unreadable for [k] seconds and readable at the next with [k] below
    [pidfile_timeout], is picked up at that second: [_read_pidfile]
    returns its pid after sleeping exactly [k] seconds, one retry a
    second, having logged the two debug records of each failed read and
    changed nothing else.  (At [k = pidfile_timeout] the call has given
    up already.) *)
Theorem read_pidfile_retries (env : Env) (k fuel : nat) (st : State) (p : Z) :
  terminating (self st) = false ->
  alarm st = None ->
  (forall j : nat, (j < k)%nat ->
     pidfile_pid env (pidfile (self st)) (now st + Z.of_nat j) = None) ->
  pidfile_pid env (pidfile (self st)) (now st + Z.of_nat k) = Some p ->
  k = 0%nat \/ Z.of_nat k < pidfile_timeout (self st) ->
  (k < fuel)%nat ->
  exists st',
    _read_pidfile env fuel st = Some (Ret (Some p), st')
    /\ now st' = now st + Z.of_nat k
    /\ trace st'
       = (trace st ++ mjoin (replicate k [Log DEBUG LPidfileReadError;
                                         Log DEBUG LRetrying]))%list
    /\ frame st st'.
Proof.
  intros Hterm Hal Hnone Hsome Hle Hfuel.
  destruct (read_pidfile_loop_retries env (now st) p k fuel st)
    as (st' & Hrun & Hnow & Htr); auto; try lia.
  exists st'. unfold _read_pidfile. cbv beta iota delta [bind get time.time].
  split; [exact Hrun|]. split; [exact Hnow|]. split; [exact Htr|].
  apply read_pidfile_loop_inv in Hrun. tauto.
Qed.

Lemma read_pidfile_retries_witness :
  exists st',
    _read_pidfile env_late 4 (state0 herder0) = Some (Ret (Some 100), st')
    /\ now st' = 0 + Z.of_nat 3
    /\ trace st'
       = ([] ++ mjoin (replicate 3 [Log DEBUG LPidfileReadError;
                                   Log DEBUG LRetrying]))%list
    /\ frame (state0 herder0) st'.
Proof.
  apply (read_pidfile_retries env_late 3 4 (state0 herder0) 100).
  - reflexivity.
  - reflexivity.
  - intros j Hj. assert (Hc : j = 0%nat \/ j = 1%nat \/ j = 2%nat) by lia.
    destruct Hc as [->|[->| ->]]; reflexivity.
  - reflexivity.
  - right. simpl. lia.
  - lia.
Defined.

(** X13. With [terminating] clear and no deadline pending, a pidfile that
    stays unreadable makes [_read_pidfile] retry once a second and raise
    [HerderError] after the sleep that brings the elapsed time to
    [pidfile_timeout]: [pidfile_timeout] seconds after the call, and after
    the first sleep, one second, when the timeout is below one; not
    earlier.  It sends nothing and leaves the Herder and the registry as
    they were. *)
Theorem read_pidfile_times_out (env : Env) (fuel : nat) (st : State) :
  terminating (self st) = false ->
  alarm st = None ->
  (forall t, now st <= t -> pidfile_pid env (pidfile (self st)) t = None) ->
  (Z.to_nat (pidfile_timeout (self st)) < fuel)%nat ->
  exists st',
    _read_pidfile env fuel st
    = Some (Raise (HerderError (FailedToReadPidfile (pidfile (self st))
                                  (pidfile_timeout (self st)))), st')
    /\ now st' = now st + Z.max 1 (pidfile_timeout (self st))
    /\ frame st st'
    /\ signals_sent (trace st') = signals_sent (trace st).
Proof.
  intros Hterm Hal Hnone Hfuel.
  destruct (read_pidfile_loop_gives_up env (now st) fuel st Hal Hterm Hnone)
    as (st' & Hrun & Hnow).
  { replace (now st + pidfile_timeout (self st) - now st)
      with (pidfile_timeout (self st)) by lia. exact Hfuel. }
  exists st'. unfold _read_pidfile. cbv beta iota delta [bind get time.time].
  split; [exact Hrun|]. split; [lia|].
  apply read_pidfile_loop_inv in Hrun. exact Hrun.
Qed.

Lemma read_pidfile_times_out_witness :
  exists st',
    _read_pidfile env_dead 181 (state0 herder0)
    = Some (Raise (HerderError (FailedToReadPidfile "gunicorn.pid" 180)), st')
    /\ now st' = 0 + Z.max 1 180
    /\ frame (state0 herder0) st'
    /\ signals_sent (trace st') = [].
Proof.
  apply (read_pidfile_times_out env_dead 181 (state0 herder0)).
  - reflexivity.
  - reflexivity.
  - reflexivity.
  - simpl. lia.
Defined.

(** *** Signal handlers with a master tracked *)

(** X14. With a master tracked, the forwarding handler sends the signal it
    was called with to that master, once, if the master runs; if the
    master is gone the send raises [NoSuchProcess] out of the handler.
    Either way [terminating] has been set when the signal is INT, QUIT or
    TERM, and for any other signal the Herder is unchanged; [reloading]
    and the registry are never touched. *)
Theorem handle_signal_with_master (env : Env) (name : string) (signum : Signals)
    (st : State) (m : psutil.Process) :
  master (self st) = Some m ->
  let p := psutil.pid m in
  let up := alive env (now st) p in
  exists st',
    _handle_signal env name signum st
    = Some (if up then Ret tt else Raise (NoSuchProcess p), st')
    /\ self st' = (if bool_decide (signum ∈ [SIGINT; SIGQUIT; SIGTERM])
                   then set_terminating true (self st) else self st)
    /\ MANAGED_PIDS st' = MANAGED_PIDS st
    /\ now st' = now st
    /\ signals_sent (trace st')
       = (signals_sent (trace st) ++ if up then [(now st, p, signum)] else [])%list.
Proof.
  intros Hm p up. subst p up.
  unfold _handle_signal, send_signal. unfold_m. rewrite Hm.
  destruct (bool_decide (signum ∈ [SIGINT; SIGQUIT; SIGTERM])); simpl;
    destruct (alive env (now st) (psutil.pid m)); simpl;
    (eexists; split; [reflexivity|]; simpl;
     split; [reflexivity|]; split; [reflexivity|]; split; [reflexivity|]);
    rewrite ?signals_sent_snoc_sent, ?signals_sent_snoc_log, ?app_nil_r;
    reflexivity.
Qed.

Lemma handle_signal_with_master_witness :
  exists st',
    _handle_signal env_live "TERM" SIGTERM st_tracking = Some (Ret tt, st')
    /\ self st' = set_terminating true (self st_tracking)
    /\ MANAGED_PIDS st' = {[ 100 ]}
    /\ now st' = 0
    /\ signals_sent (trace st') = [(0, 100, SIGTERM)].
Proof.
  apply (handle_signal_with_master env_live "TERM" SIGTERM st_tracking
           {| psutil.pid := 100 |}).
  reflexivity.
Defined.

(** X15. With a master tracked, the HUP handler sets [reloading] and sends
    USR2, not HUP, to that master, once, if the master runs; if the master
    is gone the send raises [NoSuchProcess] out of the handler with
    [reloading] already set.  [terminating] and the registry are never
    touched. *)
Theorem handle_HUP_with_master (env : Env) (signum : Signals) (st : State)
    (m : psutil.Process) :
  master (self st) = Some m ->
  let p := psutil.pid m in
  let up := alive env (now st) p in
  exists st',
    _handle_HUP env signum st
    = Some (if up then Ret tt else Raise (NoSuchProcess p), st')
    /\ self st' = set_reloading true (self st)
    /\ MANAGED_PIDS st' = MANAGED_PIDS st
    /\ now st' = now st
    /\ signals_sent (trace st')
       = (signals_sent (trace st) ++ if up then [(now st, p, SIGUSR2)] else [])%list.
Proof.
  intros Hm p up. subst p up.
  unfold _handle_HUP, send_signal. unfold_m. rewrite Hm. simpl.
  destruct (alive env (now st) (psutil.pid m)); simpl;
    (eexists; split; [reflexivity|]; simpl;
     split; [reflexivity|]; split; [reflexivity|]; split; [reflexivity|]);
    rewrite ?signals_sent_snoc_sent, ?signals_sent_snoc_log, ?app_nil_r;
    reflexivity.
Qed.

Lemma handle_HUP_with_master_witness :
  exists st',
    _handle_HUP env_dead SIGHUP st_tracking = Some (Raise (NoSuchProcess 100), st')
    /\ self st' = set_reloading true (self st_tracking)
    /\ MANAGED_PIDS st' = {[ 100 ]}
    /\ now st' = 0
    /\ signals_sent (trace st') = [].
Proof.
  apply (handle_HUP_with_master env_dead SIGHUP st_tracking {| psutil.pid := 100 |}).
  reflexivity.
Defined.

(** X16. Forwarding INT, QUIT or TERM to a running master and then
    entering the loop when the pidfile is already unreadable ends the
    supervisor at once: the loop returns 1 without sleeping or retrying,
    the only signal sent being the forwarded one. *)
Theorem terminate_then_loop_exits (env : Env) (name : string) (signum : Signals)
    (fuel : nat) (st : State) (m : psutil.Process) :
  master (self st) = Some m ->
  signum ∈ [SIGINT; SIGQUIT; SIGTERM] ->
  alive env (now st) (psutil.pid m) = true ->
  pidfile_pid env (pidfile (self st)) (now st) = None ->
  exists st',
    (_handle_signal env name signum;; loop env (S fuel)) st = Some (Ret 1, st')
    /\ now st' = now st
    /\ terminating (self st') = true
    /\ signals_sent (trace st')
       = (signals_sent (trace st) ++ [(now st, psutil.pid m, signum)])%list.
Proof.
  intros Hm Hsig Ha Hp.
  unfold loop. cbn [loop_iter].
  unfold _handle_signal, send_signal, _loop_inner, _read_pidfile.
  cbn [_read_pidfile_loop]. unfold_m. rewrite Hm.
  rewrite bool_decide_eq_true_2 by exact Hsig. simpl. rewrite Ha. simpl.
  rewrite Hp.
  eexists. split; [reflexivity|]. simpl.
  split; [reflexivity|]. split; [reflexivity|].
  rewrite signals_sent_snoc_log, signals_sent_snoc_sent, !signals_sent_snoc_log.
  reflexivity.
Qed.

Lemma terminate_then_loop_exits_witness :
  exists st',
    (_handle_signal env_unlinked "INT" SIGINT;; loop env_unlinked 1) st_tracking
    = Some (Ret 1, st')
    /\ now st' = 0
    /\ terminating (self st') = true
    /\ signals_sent (trace st') = ([] ++ [(0, 100, SIGINT)])%list.
Proof.
  apply (terminate_then_loop_exits env_unlinked "INT" SIGINT 0 st_tracking
           {| psutil.pid := 100 |}).
  - reflexivity.
  - apply list_elem_of_here.
  - reflexivity.
  - reflexivity.
Defined.

(** *** The exit hook *)

Lemma emergency_slaughter_over_run (env : Env) :
  forall (pids : list Z) (st : State),
    exists st',
      _emergency_slaughter_over env pids st = Some (Ret tt, st')
      /\ frame st st' /\ now st' = now st /\ alarm st' = alarm st
      /\ signals_sent (trace st')
         = (signals_sent (trace st) ++ slaughtered env (now st) pids)%list.
Proof.
  induction pids as [|p pids IH]; intros st.
  - exists st. split; [reflexivity|]. split; [apply frame_refl|].
    split; [reflexivity|]. split; [reflexivity|].
    symmetry. apply app_nil_r.
  - cbn [_emergency_slaughter_over]. unfold slaughtered. rewrite filter_cons.
    unfold psutil_Process, send_signal.
    destruct (alive env (now st) p) eqn:Ha.
    + pose proof (alive_nonneg _ _ _ Ha) as Hpos.
      destruct (decide (p < 0)) as [?|_]; [lia|].
      unfold_m. simpl. rewrite Ha. simpl. rewrite Ha. simpl.
      destruct (IH (emit (Sent (now st) p SIGKILL) st))
        as (st' & Hrun & (H1 & H2 & H3) & Hnow & Hal & Htr).
      simpl in *. rewrite Hrun. exists st'. split; [reflexivity|].
      split; [repeat split; congruence|]. split; [exact Hnow|]. split; [exact Hal|].
      rewrite Htr, signals_sent_snoc_sent, <- app_assoc.
      destruct (decide (true = true)); [reflexivity|contradiction].
    + destruct (IH st) as (st' & Hrun & Hf & Hnow & Hal & Htr).
      exists st'. split.
      { destruct (decide (p < 0)); unfold_m; simpl; rewrite ?Ha; simpl; exact Hrun. }
      split; [exact Hf|]. split; [exact Hnow|]. split; [exact Hal|].
      rewrite Htr. destruct (decide (false = true)); [discriminate|reflexivity].
Qed.

(** X17. The exit hook never raises and never blocks: it returns having
    sent one SIGKILL to each pid of the registry that names a running
    process and nothing to the others, and it leaves the registry, the
    Herder and the clock as they were. *)
Theorem emergency_slaughter_kills_registered (env : Env) (st : State) :
  exists st',
    _emergency_slaughter env st = Some (Ret tt, st')
    /\ frame st st'
    /\ now st' = now st
    /\ signals_sent (trace st')
       = (signals_sent (trace st)
          ++ slaughtered env (now st) (elements (MANAGED_PIDS st)))%list
    /\ forall p, (now st, p, SIGKILL) ∈ slaughtered env (now st) (elements (MANAGED_PIDS st))
         <-> p ∈ MANAGED_PIDS st /\ alive env (now st) p = true.
Proof.
  destruct (emergency_slaughter_over_run env (elements (MANAGED_PIDS st)) st)
    as (st' & Hrun & Hf & Hnow & _ & Htr).
  exists st'. unfold _emergency_slaughter. unfold_m.
  split; [exact Hrun|]. split; [exact Hf|]. split; [exact Hnow|].
  split; [exact Htr|].
  intros p. unfold slaughtered. rewrite list_elem_of_fmap. split.
  - intros (q & Heq & Hq). inversion Heq; subst.
    apply list_elem_of_filter in Hq. destruct Hq as [Ha Hin].
    split; [apply elem_of_elements, Hin|exact Ha].
  - intros [Hin Ha]. exists p. split; [reflexivity|].
    apply list_elem_of_filter. split; [exact Ha|apply elem_of_elements, Hin].
Qed.

(** *** Edge cases of the handover *)

(** X18. A reload whose old master has already exited when the new pid is
    seen: the iteration raises [NoSuchProcess] for the old master out of
    [_wait_for_workers], before any wait or signal.  The new master is
    tracked and registered by then, the old pid has not been removed, and
    [reloading] is still set. *)
Theorem loop_inner_reload_old_master_gone (env : Env) (fuel : nat)
    (st st1 : State) (old : psutil.Process) (p : Z) :
  let o := psutil.pid old in
  master (self st) = Some old ->
  reloading (self st) = true ->
  _read_pidfile env fuel st = Some (Ret (Some p), st1) ->
  p <> o ->
  alive env (now st1) p = true ->
  alive env (now st1) o = false ->
  exists st',
    _loop_inner env fuel st = Some (Raise (NoSuchProcess o), st')
    /\ master (self st') = Some {| psutil.pid := p |}
    /\ reloading (self st') = true
    /\ MANAGED_PIDS st' = {[ p ]} ∪ MANAGED_PIDS st
    /\ now st' = now st1
    /\ signals_sent (trace st') = signals_sent (trace st).
Proof.
  intros o Hm Hrel Hread Hne Hp Ho. subst o.
  destruct (read_pidfile_inv env fuel st _ _ Hread) as ((Hself & Hpids & _) & Hsig).
  unfold _loop_inner, MANAGED_PIDS_add, _wait_for_workers, children.
  cbv beta iota delta [bind ret raise get getself modify setself log try_except time.time].
  rewrite Hread, Hm.
  cbv beta iota delta [bind ret raise get getself modify setself log try_except time.time].
  rewrite (psutil_Process_alive env p st1 Hp). simpl.
  destruct (decide (p <> psutil.pid old)) as [_|]; [|contradiction].
  rewrite Hself. simpl. rewrite Hrel. simpl. rewrite Ho. simpl.
  eexists. split; [reflexivity|]. simpl.
  rewrite ?Hrel, ?Hself, ?Hrel, Hpids, signals_sent_snoc_log. auto.
Qed.

Lemma loop_inner_reload_old_master_gone_witness :
  let env := {| pidfile_pid := pidfile_pid env_live;
                running := fun _ p => bool_decide (p = 200);
                child_pids := child_pids env_live;
                shlex_split := shlex_split env_live;
                popen := popen env_live; exits_at := exits_at env_live |} in
  exists st',
    _loop_inner env 1 st_reload = Some (Raise (NoSuchProcess 100), st')
    /\ master (self st') = Some {| psutil.pid := 200 |}
    /\ reloading (self st') = true
    /\ MANAGED_PIDS st' = {[ 200 ]} ∪ {[ 100 ]}
    /\ now st' = 10
    /\ signals_sent (trace st') = [].
Proof.
  intros env.
  apply (loop_inner_reload_old_master_gone env 1 st_reload st_reload
           {| psutil.pid := 100 |} 200).
  - reflexivity.
  - reflexivity.
  - reflexivity.
  - simpl. lia.
  - reflexivity.
  - reflexivity.
Defined.

(** X19. If the new master already has the expected number of children
    when [_wait_for_workers] is called, there is no polling sleep: the
    call logs that it found them, sleeps [overlap] seconds and returns,
    whatever [max_worker_wait_time] is, even zero or negative. *)
Theorem wait_for_workers_already_up (env : Env) (fuel : nat) (ov T : Z)
    (new old : psutil.Process) (st : State) :
  let q := psutil.pid new in
  let expected_children :=
    Z.max (len (child_pids env (now st) (psutil.pid old)) - 1) 1 in
  0 <= ov ->
  alive env (now st) (psutil.pid old) = true ->
  alive env (now st) q = true ->
  expected_children <= len (child_pids env (now st) q) ->
  exists st',
    _wait_for_workers env (S fuel) ov T new old st = Some (Ret tt, st')
    /\ now st' = now st + ov
    /\ alarm st' = None
    /\ trace st' = (trace st ++ [Log DEBUG (LFoundChildren expected_children q ov)])%list.
Proof.
  intros q exp Hov Hold Hnew Hup. subst q.
  unfold _wait_for_workers, children, timeout. cbn [_wait_for_workers_poll].
  unfold children. unfold_m. simpl.
  rewrite Hold, Hnew, !len_fmap. fold exp.
  destruct (decide (len (child_pids env (now st) (psutil.pid new)) < exp)); [lia|].
  simpl. destruct (decide (ov < 0)); [lia|].
  unfold block. simpl.
  eexists. split; [reflexivity|]. simpl. auto.
Qed.

Lemma wait_for_workers_already_up_witness :
  exists st',
    _wait_for_workers env_live 1 180 0 {| psutil.pid := 200 |}
      {| psutil.pid := 100 |} (set_now 20 (state0 herder0)) = Some (Ret tt, st')
    /\ now st' = 20 + 180
    /\ alarm st' = None
    /\ trace st' = [Log DEBUG (LFoundChildren 4 200 180)].
Proof.
  apply (wait_for_workers_already_up env_live 0 180 0 {| psutil.pid := 200 |}
           {| psutil.pid := 100 |} (set_now 20 (state0 herder0))).
  - lia.
  - reflexivity.
  - reflexivity.
  - vm_compute. discriminate.
Defined.

(** *** Construction and the command line *)

Lemma COMMANDS_keys (u tpl : string) :
  COMMANDS !! u = Some tpl ->
  u = "unicorn" \/ u = "unicorn_rails" \/ u = "unicorn_bin"
  \/ u = "gunicorn" \/ u = "gunicorn_django" \/ u = "gunicorn_bin".
Proof.
  intros H. unfold COMMANDS in H. apply elem_of_list_to_map_2 in H.
  repeat (apply elem_of_cons in H; destruct H as [H|H];
          [inversion H; subst; tauto|]).
  apply elem_of_nil in H. contradiction.
Qed.

(** X20. For a Herder that [__init__] returned, the last branch of the
    command selection in [spawn] ([else: return False]) is never taken:
    the selection either yields a command line, or raises [KeyError] for
    the Herder's own name, which happens only when that name is the
    template key [unicorn_bin] or [gunicorn_bin]. *)
Theorem spawn_cmd_of_constructed (flavor : string)
    (ub gb pidfile_ : option string) (bt pt ov mw : Z) (args_ : string)
    (h : Herder) (st : State) :
  __init__ flavor ub gb pidfile_ bt pt ov mw args_ = Ret h ->
  self st = h ->
  (exists cmd, spawn_cmd st = Some (Ret (Some cmd), st))
  \/ (spawn_cmd st = Some (Raise (KeyError (unicorn h)), st)
      /\ (unicorn h = "unicorn_bin" \/ unicorn h = "gunicorn_bin")).
Proof.
  intros Hinit Hs. unfold spawn_cmd. cbv beta iota delta [bind ret raise lift get].
  rewrite Hs.
  destruct (COMMANDS !! unicorn h) as [tpl|] eqn:Hk.
  - pose proof (COMMANDS_keys _ _ Hk) as Hu.
    destruct Hu as [Hu|[Hu|[Hu|[Hu|[Hu|Hu]]]]]; rewrite Hu in Hk;
      vm_compute in Hk; inversion Hk; subst tpl; clear Hk.
    1,2,4,5: left; vm_compute; rewrite ?append_nil_r; eauto.
    all: right; rewrite Hu; split; [reflexivity|tauto].
  - unfold __init__ in Hinit.
    destruct (truthy ub) eqn:Hub; simpl in Hinit.
    + inversion Hinit; subst h; clear Hinit. simpl in *. rewrite Hub.
      left. vm_compute. rewrite ?append_nil_r. eauto.
    + destruct (truthy gb) eqn:Hgb; simpl in Hinit.
      * inversion Hinit; subst h; clear Hinit. simpl in *. rewrite Hub, Hgb.
        left. vm_compute. rewrite ?append_nil_r. eauto.
      * destruct (COMMANDS !! flavor) eqn:Hf; simpl in Hinit.
        -- inversion Hinit as [H0]; subst h; clear Hinit.
           rewrite <- H0 in Hk. cbn [unicorn] in Hk. congruence.
        -- discriminate.
Qed.

Lemma spawn_cmd_of_constructed_witness :
  (exists cmd, spawn_cmd (state0 herder0) = Some (Ret (Some cmd), state0 herder0))
  \/ (spawn_cmd (state0 herder0) = Some (Raise (KeyError "gunicorn"), state0 herder0)
      /\ ("gunicorn" = "unicorn_bin" \/ "gunicorn" = "gunicorn_bin")).
Proof.
  apply (spawn_cmd_of_constructed "gunicorn" None None None 180 180 180 180
           EmptyString herder0 (state0 herder0)); reflexivity.
Defined.
